(** * LCD clock: keypad scanner, time-entry state machine, display scheduler

    A shallow embedding of [lcd_clock.cpp].  Integers of the program are
    modelled as [Z], characters as [ascii] (with [code] for their values),
    the two [mbed::Timer] objects as explicit records read against a clock
    value supplied by the environment, and the body of the [while(1)] loop
    as a function from a state and one iteration's inputs to the next
    state. *)

From Stdlib Require Import String Ascii.
From Stdlib Require Import ZArith List Bool Lia ZifyBool.
Import ListNotations.
Local Open Scope Z_scope.

(** ** Characters *)

(** The integer value of a [char]; every character the program handles is
    7-bit ASCII, so signedness of [char] plays no role. *)
Definition code (c : ascii) : Z := Z.of_N (N_of_ascii c).

Definition chr_eqb (a b : ascii) : bool := Ascii.eqb a b.

(** ** The mbed timer

    [mbed::Timer] is library code: [start] latches the clock when the timer
    is not yet running, [reset] latches it again, and [read_ms] is the time
    since the latch in milliseconds, returned as an [int].  The clock is a
    microsecond counter sampled by the caller. *)
Module Timer.

Record t := mk { running : bool; latch_us : Z }.

Definition fresh : t := mk false 0.

Definition to_int (z : Z) : Z := (z + 2 ^ 31) mod 2 ^ 32 - 2 ^ 31.

Definition start (tm : t) (now : Z) : t :=
  if running tm then tm else mk true now.

Definition reset (tm : t) (now : Z) : t := mk (running tm) now.

Definition elapsed_us (tm : t) (now : Z) : Z :=
  if running tm then now - latch_us tm else 0.

Definition read_ms (tm : t) (now : Z) : Z :=
  to_int (Z.quot (elapsed_us tm now) 1000).

End Timer.

(** ** The keypad scanner *)

Module Keypad.

(** [key_map[4][4]] *)
Definition key_map : list (list ascii) :=
  [ [ "1"; "2"; "3"; "A" ];
    [ "4"; "5"; "6"; "P" ];
    [ "7"; "8"; "9"; "M" ];
    [ "*"; "0"; "#"; "D" ] ]%char.

(** [key_map[r][c]]; only ever read with both indices in 0..3. *)
Definition key_at (rc : Z * Z) : ascii :=
  nth (Z.to_nat (snd rc)) (nth (Z.to_nat (fst rc)) key_map []) "000"%char.

(** The static locals of [keypadScan]. *)
Record ScanState := mkScan {
  row_col : Z * Z;
  last_key : Z * Z;
  debounceTimer : Timer.t
}.

Definition scan_init : ScanState := mkScan (-1, -1) (-1, -1) Timer.fresh.

Definition debounce_time : Z := 500.

(** The column lines as they read while one row is driven low:
    a function from the column index to the level (0 = pressed). *)
Definition Cols := Z -> Z.

(** The whole matrix: the row driven low, then the column read. *)
Definition Pins := Z -> Z -> Z.

(** [col_scan]: [for (i = 0; i < 4; i++) if (cols[i].read() == 0) return i;]
    then [-1].  [n] counts the iterations left. *)
Fixpoint col_scan_from (cols : Cols) (i : Z) (n : nat) : Z :=
  match n with
  | O => -1
  | S n' => if cols i =? 0 then i else col_scan_from cols (i + 1) n'
  end.

Definition col_scan (cols : Cols) : Z := col_scan_from cols 0 4.

(** The row loop of [keypadScan].  Each pass stores the column scan in
    [row_col[1]]; on a hit it stores the row in [row_col[0]], clears
    [noKeyPressed], starts the debounce timer and breaks.  The result is
    [(row_col, noKeyPressed, debounceTimer)].  Every row line is back at
    1 when the loop is left, so the row outputs are not part of the
    state. *)
Fixpoint row_loop (pins : Pins) (now : Z) (i : Z) (n : nat)
         (rc : Z * Z) (tm : Timer.t) : (Z * Z) * bool * Timer.t :=
  match n with
  | O => (rc, true, tm)
  | S n' =>
      let c := col_scan (pins i) in
      if c >? -1 then ((i, c), false, Timer.start tm now)
      else row_loop pins now (i + 1) n' (fst rc, c) tm
  end.

Definition same_key (a b : Z * Z) : bool :=
  (fst a =? fst b) && (snd a =? snd b).

(** [keypadScan]: the character returned and the new static state.
    [now] is the clock at the call. *)
Definition keypadScan (pins : Pins) (now : Z) (st : ScanState)
  : ascii * ScanState :=
  match row_loop pins now 0 4 (row_col st) (debounceTimer st) with
  | (rc, noKeyPressed, tm) =>
      if noKeyPressed then
        ("x"%char, mkScan rc (-1, -1) tm)
      else if same_key (last_key st) rc
              || (Timer.read_ms tm now <? debounce_time) then
        ("x"%char, mkScan rc (last_key st) tm)
      else
        (key_at rc, mkScan rc rc (Timer.reset tm now))
  end.

(** *** What the scan finds *)

(** No column of row [r] reads low. *)
Definition row_idle (pins : Pins) (r : Z) : Prop :=
  pins r 0 <> 0 /\ pins r 1 <> 0 /\ pins r 2 <> 0 /\ pins r 3 <> 0.

(** [(r, c)] is the matched coordinate: the first row with a low column,
    and the first low column of that row. *)
Definition matched (pins : Pins) (r c : Z) : Prop :=
  0 <= r < 4 /\ 0 <= c < 4 /\ pins r c = 0 /\
  (forall c', 0 <= c' < c -> pins r c' <> 0) /\
  (forall r', 0 <= r' < r -> row_idle pins r').

(** The debounce timer as [keypadScan] reads it on a match: started by
    the row loop if it was not running yet. *)
Definition elapsed_ms (st : ScanState) (now : Z) : Z :=
  Timer.read_ms (Timer.start (debounceTimer st) now) now.

(** The characters the scanner can hand to the main loop. *)
Definition keys : list ascii := concat key_map.

End Keypad.

(** ** The main loop *)

Module Clock.

(** Entry-field constants. *)
Definition HOUR : Z := 0.
Definition MIN : Z := 1.
Definition AM_PM : Z := 2.
Definition ENTER : Z := 3.

(** Operating-mode constants. *)
Definition NORMAL_MODE : Z := 0.
Definition SET_MODE : Z := 1.
Definition ERROR_MODE : Z := 2.

(** [char current_entry[2]] *)
Record Entry := mkEntry { slot0 : ascii; slot1 : ascii }.

(** What [reset_entries] stores. *)
Definition blank_entry : Entry := mkEntry "_" "_".

(** [current_entry[i] = c].  The program only ever writes with [i] equal
    to 0 or 1; any other index is outside the array and is left without
    effect here. *)
Definition entry_write (e : Entry) (i : Z) (c : ascii) : Entry :=
  if i =? 0 then mkEntry c (slot1 e)
  else if i =? 1 then mkEntry (slot0 e) c
  else e.

(** [(current_entry[0] - '0')*10 + (current_entry[1] - '0')] *)
Definition entry_value (e : Entry) : Z :=
  (code (slot0 e) - code "0") * 10 + (code (slot1 e) - code "0").

(** One [lcd.cls()] followed by at most one [lcd.printf], recorded by the
    format used and its arguments. *)
Inductive Frame :=
| ClockLine (hh mm ss : Z) (suffix : string) (temp : Z) (unit : ascii)
| ErrorBanner
| HourPrompt (c0 c1 : ascii)
| MinPrompt (c0 c1 : ascii)
| AmPmPrompt (c0 c1 : ascii)
| Cleared.

(** The variables of [main] that live across iterations, the globals
    [index] and [current_entry], and the two output channels: the times
    handed to [set_time] and the frames sent to the display, newest
    first. *)
Record State := mkState {
  mode : Z;
  entry_mode : Z;
  index : Z;
  current_entry : Entry;
  hr : Z;
  min : Z;
  update_LCD : bool;
  timer : Timer.t;
  rtc_log : list (Z * Z * Z);
  lcd_log : list Frame
}.

(** What one pass of the loop reads from its surroundings: the clock, the
    broken-down time [localtime] returns, what [getTemp] returns for each
    value of [toggle], and [toggle] itself. *)
Record Env := mkEnv {
  now : Z;
  tm_hour : Z;
  tm_min : Z;
  tm_sec : Z;
  getTemp : bool -> Z;
  toggle : bool
}.

(** The state on entry to the loop; [timer.start()] has been called at
    clock [t0]. *)
Definition init (t0 : Z) : State :=
  mkState NORMAL_MODE HOUR 0 blank_entry 0 0 false
          (Timer.start Timer.fresh t0) [] [].

Definition set_mode (v : Z) (s : State) : State :=
  mkState v (entry_mode s) (index s) (current_entry s) (hr s) (min s)
          (update_LCD s) (timer s) (rtc_log s) (lcd_log s).

Definition set_entry_mode (v : Z) (s : State) : State :=
  mkState (mode s) v (index s) (current_entry s) (hr s) (min s)
          (update_LCD s) (timer s) (rtc_log s) (lcd_log s).

Definition set_index (v : Z) (s : State) : State :=
  mkState (mode s) (entry_mode s) v (current_entry s) (hr s) (min s)
          (update_LCD s) (timer s) (rtc_log s) (lcd_log s).

Definition set_current_entry (v : Entry) (s : State) : State :=
  mkState (mode s) (entry_mode s) (index s) v (hr s) (min s)
          (update_LCD s) (timer s) (rtc_log s) (lcd_log s).

Definition set_hr (v : Z) (s : State) : State :=
  mkState (mode s) (entry_mode s) (index s) (current_entry s) v (min s)
          (update_LCD s) (timer s) (rtc_log s) (lcd_log s).

Definition set_min (v : Z) (s : State) : State :=
  mkState (mode s) (entry_mode s) (index s) (current_entry s) (hr s) v
          (update_LCD s) (timer s) (rtc_log s) (lcd_log s).

Definition set_update_LCD (v : bool) (s : State) : State :=
  mkState (mode s) (entry_mode s) (index s) (current_entry s) (hr s) (min s)
          v (timer s) (rtc_log s) (lcd_log s).

Definition set_timer (v : Timer.t) (s : State) : State :=
  mkState (mode s) (entry_mode s) (index s) (current_entry s) (hr s) (min s)
          (update_LCD s) v (rtc_log s) (lcd_log s).

Definition push_rtc (v : Z * Z * Z) (s : State) : State :=
  mkState (mode s) (entry_mode s) (index s) (current_entry s) (hr s) (min s)
          (update_LCD s) (timer s) (v :: rtc_log s) (lcd_log s).

Definition push_lcd (v : Frame) (s : State) : State :=
  mkState (mode s) (entry_mode s) (index s) (current_entry s) (hr s) (min s)
          (update_LCD s) (timer s) (rtc_log s) (v :: lcd_log s).

Definition reset_entries (s : State) : State :=
  set_current_entry blank_entry s.

(** [timer.reset(); mode = ERROR_MODE;] *)
Definition enter_error (t : Z) (s : State) : State :=
  set_mode ERROR_MODE (set_timer (Timer.reset (timer s) t) s).

(** The ['#'] branch for [entry_mode == HOUR]. *)
Definition check_hour (t : Z) (s : State) : State :=
  let s1 := set_hr (entry_value (current_entry s)) s in
  if (hr s1 <? 1) || (hr s1 >? 12) then enter_error t s1
  else set_entry_mode (entry_mode s1 + 1) s1.

(** The ['#'] branch for [entry_mode == MIN]. *)
Definition check_min (t : Z) (s : State) : State :=
  let s1 := set_min (entry_value (current_entry s)) s in
  if min s1 >? 59 then enter_error t s1
  else set_entry_mode (entry_mode s1 + 1) s1.

(** The ['#'] branch for [entry_mode == AM_PM]. *)
Definition check_am_pm (t : Z) (s : State) : State :=
  let e := current_entry s in
  if (negb (chr_eqb (slot0 e) "A") && negb (chr_eqb (slot0 e) "P"))
     || negb (chr_eqb (slot1 e) "M")
  then enter_error t s
  else
    let s1 := if chr_eqb (slot0 e) "P" && negb (hr s =? 12)
              then set_hr (hr s + 12) s else s in
    set_entry_mode (entry_mode s1 + 1) s1.

(** The ['#'] key in [SET_MODE]: the check of the current field, then
    [update_LCD = 1; reset_entries();]. *)
Definition check_entry (t : Z) (s : State) : State :=
  let s1 :=
    if entry_mode s =? HOUR then check_hour t s
    else if entry_mode s =? MIN then check_min t s
    else if entry_mode s =? AM_PM then check_am_pm t s
    else s in
  reset_entries (set_update_LCD true s1).

(** The key-press section of the loop body. *)
Definition key_press (key : ascii) (t : Z) (s : State) : State :=
  if negb (chr_eqb key "x") && negb (mode s =? ERROR_MODE) then
    if chr_eqb key "*" then
      reset_entries
        (set_index 0
           (set_update_LCD true (set_entry_mode HOUR (set_mode SET_MODE s))))
    else if chr_eqb key "D" then
      reset_entries (set_entry_mode HOUR (set_mode NORMAL_MODE s))
    else if mode s =? SET_MODE then
      if negb (chr_eqb key "#") then
        set_update_LCD true
          (set_index (if index s =? 0 then 1 else 0)
             (set_current_entry
                (entry_write (current_entry s) (index s) key) s))
      else check_entry t s
    else s
  else s.

(** The time-update section: on [entry_mode == ENTER] the hour, the minute
    and second 0 go to [set_time], and the mode falls back to normal. *)
Definition time_update (s : State) : State :=
  if entry_mode s =? ENTER then
    reset_entries
      (set_entry_mode HOUR
         (set_mode NORMAL_MODE (push_rtc (hr s, min s, 0) s)))
  else s.

(** The first and fourth arguments of the clock line's [printf]. *)
Definition display_hour (h : Z) : Z :=
  if Z.rem h 12 =? 0 then 12 else Z.rem h 12.

Definition am_pm_suffix (h : Z) : string :=
  if h >? 12 then "PM"%string else "AM"%string.

(** [C_F[toggle]] *)
Definition unit_char (tg : bool) : ascii :=
  if tg then "F"%char else "C"%char.

(** The frame drawn in [SET_MODE] or [ERROR_MODE]. *)
Definition prompt_frame (s : State) : Frame :=
  let e := current_entry s in
  if mode s =? ERROR_MODE then ErrorBanner
  else if entry_mode s =? HOUR then HourPrompt (slot0 e) (slot1 e)
  else if entry_mode s =? MIN then MinPrompt (slot0 e) (slot1 e)
  else if entry_mode s =? AM_PM then AmPmPrompt (slot0 e) (slot1 e)
  else Cleared.

(** The screen-update section. *)
Definition screen_update (env : Env) (s : State) : State :=
  if (mode s =? NORMAL_MODE) && (Timer.read_ms (timer s) (now env) >=? 1000)
  then
    set_timer (Timer.reset (timer s) (now env))
      (push_lcd
         (ClockLine (display_hour (tm_hour env)) (tm_min env) (tm_sec env)
                    (am_pm_suffix (tm_hour env))
                    (getTemp env (toggle env)) (unit_char (toggle env)))
         s)
  else if (mode s >=? SET_MODE) && update_LCD s then
    set_update_LCD false (push_lcd (prompt_frame s) s)
  else if (mode s =? ERROR_MODE)
          && (Timer.read_ms (timer s) (now env) >=? 2000) then
    set_update_LCD true
      (set_index 0
         (set_mode (mode s - 1)
            (set_timer (Timer.reset (timer s) (now env)) s)))
  else s.

(** The body of [while (1)] once [keypadScan] has returned [key]. *)
Definition loop_body (key : ascii) (env : Env) (s : State) : State :=
  screen_update env (time_update (key_press key (now env) s)).

(** The loop fed with the keys the scanner returned, one per pass. *)
Fixpoint run_keys (ins : list (ascii * Env)) (s : State) : State :=
  match ins with
  | [] => s
  | (k, env) :: rest => run_keys rest (loop_body k env s)
  end.

(** The whole program state: the scanner's statics and the loop's. *)
Record Sys := mkSys { scan : Keypad.ScanState; st : State }.

Definition sys_init (t0 : Z) : Sys := mkSys Keypad.scan_init (init t0).

(** One full pass: [key_map_val = keypadScan();] and the body. *)
Definition main_iter (pins : Keypad.Pins) (env : Env) (y : Sys) : Sys :=
  match Keypad.keypadScan pins (now env) (scan y) with
  | (k, sc) => mkSys sc (loop_body k env (st y))
  end.

Fixpoint main_run (ins : list (Keypad.Pins * Env)) (y : Sys) : Sys :=
  match ins with
  | [] => y
  | (pins, env) :: rest => main_run rest (main_iter pins env y)
  end.

(** The characters that can sit in a slot of [current_entry]: the blank,
    or a key that is neither ['*'], ['D'] nor ['#']. *)
Definition slot_chars : list ascii :=
  [ "_"; "0"; "1"; "2"; "3"; "4"; "5"; "6"; "7"; "8"; "9"; "A"; "P"; "M" ]%char.

Definition slot_ok (c : ascii) : Prop := In c slot_chars.

Definition entry_ok (e : Entry) : Prop := slot_ok (slot0 e) /\ slot_ok (slot1 e).

End Clock.

(** ** Inputs for the worked examples *)

(** The matrix with the single key at row [r], column [c] held down. *)
Definition press (r c : Z) : Keypad.Pins :=
  fun i j => if (i =? r) && (j =? c) then 0 else 1.

(** The matrix with no key held. *)
Definition no_press : Keypad.Pins := fun _ _ => 1.

(** An environment in which only the clock matters. *)
Definition env_at (t : Z) : Clock.Env :=
  Clock.mkEnv t 0 0 0 (fun _ => 20) false.

(** Keys arriving one per pass, all at clock [t]. *)
Definition keys_at (t : Z) (ks : list ascii) : list (ascii * Clock.Env) :=
  map (fun k => (k, env_at t)) ks.

(** Keys tapped one after the other, a second apart starting at clock
    [t]: each coordinate is held for one pass and released for the next.
    The scanner swallows the very first tap, which only starts its
    timer. *)
Fixpoint typed (cs : list (Z * Z)) (t : Z) : list (Keypad.Pins * Clock.Env) :=
  match cs with
  | [] => []
  | (r, c) :: rest =>
      (press r c, env_at t) :: (no_press, env_at t)
        :: typed rest (t + 1000000)
  end.

(** ** The loop seen through its keys *)

(** The part of the state the key-press and time-update sections read and
    write, leaving out the redraw flag, the timer and the display. *)
Definition core (s : Clock.State)
  : Z * Z * Z * Clock.Entry * Z * Z * list (Z * Z * Z) :=
  (Clock.mode s, Clock.entry_mode s, Clock.index s, Clock.current_entry s,
   Clock.hr s, Clock.min s, Clock.rtc_log s).

(** The key-press and time-update sections alone, at clock 0. *)
Definition key_step (k : ascii) (s : Clock.State) : Clock.State :=
  Clock.time_update (Clock.key_press k 0 s).

Fixpoint key_run (ks : list ascii) (s : Clock.State) : Clock.State :=
  match ks with
  | [] => s
  | k :: rest => key_run rest (key_step k s)
  end.

(** No key of [ks] takes [s] into error mode. *)
Fixpoint never_error (ks : list ascii) (s : Clock.State) : bool :=
  match ks with
  | [] => true
  | k :: rest =>
      negb (Clock.mode (key_step k s) =? Clock.ERROR_MODE)
      && never_error rest (key_step k s)
  end.

(** ** Invariants of the loop *)

(** A time as handed to [set_time]: 24-hour hour, minute, second 0. *)
Definition commit_ok (c : Z * Z * Z) : Prop :=
  match c with
  | (h, m, sec) => 1 <= h <= 23 /\ 0 <= m <= 59 /\ sec = 0
  end.

(** What holds of the loop's variables between the sections of one pass:
    the buffer holds blanks or enterable keys, the cursor is 0 or 1, and
    the hour and minute variables are within range as soon as the entry
    field has moved past them. *)
Definition fields_ok (s : Clock.State) : Prop :=
  Clock.entry_ok (Clock.current_entry s) /\
  0 <= Clock.index s <= 1 /\
  0 <= Clock.mode s <= 2 /\
  0 <= Clock.entry_mode s <= 3 /\
  (1 <= Clock.entry_mode s <= 2 -> 1 <= Clock.hr s <= 12) /\
  (2 <= Clock.entry_mode s <= 3 -> 0 <= Clock.min s <= 59) /\
  (Clock.entry_mode s = 3 -> 1 <= Clock.hr s <= 23) /\
  Forall commit_ok (Clock.rtc_log s).

(** What holds at the top of every pass: the entry field is never left at
    [ENTER]. *)
Definition state_ok (s : Clock.State) : Prop :=
  fields_ok s /\ Clock.entry_mode s <> Clock.ENTER.

(** A character [keypadScan] can return. *)
Definition key_ok (k : ascii) : Prop := k = "x"%char \/ In k Keypad.keys.

(** ** The scanner over several calls *)

(** No key is held: every row reads idle. *)
Definition all_idle (pins : Keypad.Pins) : Prop :=
  forall r, 0 <= r < 4 -> Keypad.row_idle pins r.

(** [keypadScan] called once per element, each with the matrix and the
    clock at that call; the characters returned, oldest first, and the
    statics after the last call. *)
Fixpoint scan_run (ins : list (Keypad.Pins * Z)) (s : Keypad.ScanState)
  : list ascii * Keypad.ScanState :=
  match ins with
  | [] => ([], s)
  | (pins, t) :: rest =>
      match Keypad.keypadScan pins t s with
      | (k, s1) =>
          match scan_run rest s1 with
          | (ks, s2) => (k :: ks, s2)
          end
      end
  end.

(** ** Further invariants and input classes *)

(** A decimal digit. *)
Definition is_digit (c : ascii) : Prop := 48 <= code c <= 57.

(** The keys that go into the buffer when pressed in Set mode: every key
    of the pad except ['*'], ['D'] and ['#']. *)
Definition entry_keys : list ascii :=
  [ "0"; "1"; "2"; "3"; "4"; "5"; "6"; "7"; "8"; "9"; "A"; "P"; "M" ]%char.

Definition entry_key (k : ascii) : Prop := In k entry_keys.

(** What the modes imply at the top of every pass: normal mode carries no
    pending entry, and error mode has a blank buffer, a clear redraw flag
    and the banner as the newest frame. *)
Definition tidy (s : Clock.State) : Prop :=
  0 <= Clock.mode s <= 2 /\
  Clock.entry_mode s <> Clock.ENTER /\
  (Clock.mode s = Clock.NORMAL_MODE ->
   Clock.entry_mode s = Clock.HOUR /\
   Clock.current_entry s = Clock.blank_entry) /\
  (Clock.mode s = Clock.ERROR_MODE ->
   Clock.current_entry s = Clock.blank_entry /\
   Clock.update_LCD s = false /\
   exists rest, Clock.lcd_log s = Clock.ErrorBanner :: rest).

(** * Properties *)

(** ** Characters and timers *)

Lemma chr_eqb_eq (a b : ascii) : chr_eqb a b = true <-> a = b.
Proof. apply Ascii.eqb_eq. Qed.

Lemma chr_eqb_neq (a b : ascii) : chr_eqb a b = false <-> a <> b.
Proof. apply Ascii.eqb_neq. Qed.

Lemma read_ms_reset tm t : Timer.read_ms (Timer.reset tm t) t = 0.
Proof.
  unfold Timer.read_ms, Timer.elapsed_us, Timer.reset; simpl.
  destruct (Timer.running tm); [rewrite Z.sub_diag|]; reflexivity.
Qed.

(** ** The scanner *)

Section Scanner.

Import Keypad.

Variable pins : Pins.
Variable t : Z.

Lemma col_scan_hit (cols : Cols) (c : Z) :
  0 <= c < 4 -> cols c = 0 ->
  (forall c', 0 <= c' < c -> cols c' <> 0) ->
  col_scan cols = c.
Proof.
  intros Hc H0 Hlt.
  assert (E : forall c', 0 <= c' < c -> (cols c' =? 0) = false)
    by (intros; apply Z.eqb_neq; auto).
  assert (Hcase : c = 0 \/ c = 1 \/ c = 2 \/ c = 3) by lia.
  unfold col_scan; simpl.
  destruct Hcase as [-> | [-> | [-> | ->]]];
    rewrite ?(E 0), ?(E 1), ?(E 2) by lia; rewrite H0; reflexivity.
Qed.

Lemma col_scan_idle (r : Z) : row_idle pins r -> col_scan (pins r) = -1.
Proof.
  intros (H0 & H1 & H2 & H3). unfold col_scan; simpl.
  apply Z.eqb_neq in H0, H1, H2, H3. now rewrite H0, H1, H2, H3.
Qed.

Lemma row_loop_hit (r c : Z) (n : nat) :
  forall i rc tm,
    i <= r < i + Z.of_nat n ->
    (forall r', i <= r' < r -> row_idle pins r') ->
    col_scan (pins r) = c -> 0 <= c ->
    row_loop pins t i n rc tm = ((r, c), false, Timer.start tm t).
Proof.
  induction n as [| n IH]; intros i rc tm Hr Hidle Hcol Hc; [lia|].
  cbn [row_loop].
  destruct (Z.eq_dec i r) as [-> | Hne].
  - rewrite Hcol. destruct (c >? -1) eqn:E; [reflexivity | lia].
  - rewrite col_scan_idle by (apply Hidle; lia). simpl (-1 >? -1).
    cbv iota. apply IH; auto; try lia. intros; apply Hidle; lia.
Qed.

Lemma row_loop_miss (n : nat) :
  forall i rc tm,
    (forall r', i <= r' < i + Z.of_nat n -> row_idle pins r') ->
    exists rc', row_loop pins t i n rc tm = (rc', true, tm).
Proof.
  induction n as [| n IH]; intros i rc tm Hidle.
  - eexists; reflexivity.
  - cbn [row_loop]. rewrite col_scan_idle by (apply Hidle; lia).
    simpl (-1 >? -1). cbv iota. apply IH. intros; apply Hidle; lia.
Qed.

Lemma row_loop_matched (r c : Z) rc tm :
  matched pins r c ->
  row_loop pins t 0 4 rc tm = ((r, c), false, Timer.start tm t).
Proof.
  intros (Hr & Hc & H0 & Hcols & Hrows).
  apply row_loop_hit; auto; try lia.
  apply col_scan_hit; auto.
Qed.

Lemma key_at_in_keys (r c : Z) :
  0 <= r < 4 -> 0 <= c < 4 -> In (key_at (r, c)) keys.
Proof.
  intros Hr Hc.
  assert (Hr' : r = 0 \/ r = 1 \/ r = 2 \/ r = 3) by lia.
  assert (Hc' : c = 0 \/ c = 1 \/ c = 2 \/ c = 3) by lia.
  destruct Hr' as [-> | [-> | [-> | ->]]];
    destruct Hc' as [-> | [-> | [-> | ->]]]; vm_compute; tauto.
Qed.

Lemma keys_not_x : ~ In "x"%char keys.
Proof.
  vm_compute. intros H.
  repeat (destruct H as [H | H]; [discriminate H|]). exact H.
Qed.

Lemma same_key_true (a : Z * Z) (r c : Z) :
  same_key a (r, c) = true <-> a = (r, c).
Proof.
  destruct a as [a0 a1]; unfold same_key; simpl.
  rewrite andb_true_iff, !Z.eqb_eq. split.
  - intros [-> ->]; reflexivity.
  - intros [= -> ->]; auto.
Qed.

End Scanner.

Lemma press_matched (r c : Z) :
  0 <= r < 4 -> 0 <= c < 4 -> Keypad.matched (press r c) r c.
Proof.
  intros Hr Hc. unfold Keypad.matched, Keypad.row_idle, press.
  repeat split; auto; try lia.
  - now rewrite !Z.eqb_refl.
  - intros c' Hc'.
    replace (c' =? c) with false by (symmetry; apply Z.eqb_neq; lia).
    rewrite andb_false_r. simpl; discriminate.
  - replace (r' =? r) with false by (symmetry; apply Z.eqb_neq; lia).
    simpl; discriminate.
  - replace (r' =? r) with false by (symmetry; apply Z.eqb_neq; lia).
    simpl; discriminate.
  - replace (r' =? r) with false by (symmetry; apply Z.eqb_neq; lia).
    simpl; discriminate.
  - replace (r' =? r) with false by (symmetry; apply Z.eqb_neq; lia).
    simpl; discriminate.
Qed.

(** The scanner only ever returns ['x'] or a character of the key map. *)
Lemma keypadScan_returns_key pins t st :
  fst (Keypad.keypadScan pins t st) = "x"%char \/
  In (fst (Keypad.keypadScan pins t st)) Keypad.keys.
Proof.
  unfold Keypad.keypadScan.
  destruct (Keypad.row_loop pins t 0 4 (Keypad.row_col st) (Keypad.debounceTimer st))
    as [[rc nk] tm] eqn:E.
  destruct nk; [left; reflexivity|].
  destruct (_ || _); [left; reflexivity|]. right. simpl.
  assert (H : 0 <= fst rc < 4 /\ 0 <= snd rc < 4).
  { clear - E. revert E.
    generalize (Keypad.row_col st), (Keypad.debounceTimer st).
    assert (G : forall n i p t0, 0 <= i -> i + Z.of_nat n <= 4 ->
               Keypad.row_loop pins t i n p t0 = (rc, false, tm) ->
               0 <= fst rc < 4 /\ 0 <= snd rc < 4).
    { induction n as [| n IH]; intros i p t0 Hi Hn; cbn [Keypad.row_loop].
      - discriminate.
      - destruct (Keypad.col_scan (pins i) >? -1) eqn:Hc.
        + intros [= <- _]. simpl. split; [lia|].
          split; [lia|]. clear. unfold Keypad.col_scan; simpl.
          repeat (destruct (_ =? 0); [lia|]). lia.
        + apply IH; lia. }
    intros p t0. apply G; simpl; lia. }
  destruct rc as [r c]; simpl in H. apply key_at_in_keys; lia.
Qed.

Lemma keypadScan_debounce_cases (pins : Keypad.Pins) (t : Z)
        (s : Keypad.ScanState) (r c : Z) :
  Keypad.matched pins r c ->
  let out := Keypad.keypadScan pins t s in
  let swallow :=
    Keypad.last_key s = (r, c) \/
    Keypad.elapsed_ms s t < Keypad.debounce_time in
  (fst out = "x"%char <-> swallow) /\
  (swallow ->
   Keypad.last_key (snd out) = Keypad.last_key s /\
   Keypad.debounceTimer (snd out) = Timer.start (Keypad.debounceTimer s) t) /\
  (~ swallow ->
   fst out = Keypad.key_at (r, c) /\
   Keypad.last_key (snd out) = (r, c) /\
   Timer.read_ms (Keypad.debounceTimer (snd out)) t = 0).
Proof.
  intros Hm out swallow. subst out swallow.
  unfold Keypad.keypadScan, Keypad.elapsed_ms.
  rewrite (row_loop_matched pins t r c _ _ Hm).
  pose proof (same_key_true (Keypad.last_key s) r c) as Hsame.
  assert (Hkey : Keypad.key_at (r, c) <> "x"%char).
  { intros E. apply keys_not_x. rewrite <- E.
    destruct Hm as (Hr & Hc & _). now apply key_at_in_keys. }
  destruct (Keypad.same_key (Keypad.last_key s) (r, c)) eqn:Es; simpl.
  - assert (Keypad.last_key s = (r, c)) by now apply Hsame.
    repeat split; auto; tauto.
  - assert (Hne : Keypad.last_key s <> (r, c)).
    { intros E. apply Hsame in E. discriminate. }
    destruct (Z.ltb_spec (Timer.read_ms (Timer.start (Keypad.debounceTimer s) t) t)
                         Keypad.debounce_time) as [Hlt | Hge]; simpl.
    + repeat split; auto; tauto.
    + split; [|split].
      * split; [intros E; now elim Hkey | intros [E | E]; [tauto | lia]].
      * intros [E | E]; [tauto | lia].
      * intros _. repeat split; auto. apply read_ms_reset.
Qed.

(** C1, as the code has it: on a matched coordinate [keypadScan] returns
    the no-key character exactly when the coordinate equals the last
    accepted one OR the debounce timer reads below 500 ms.  The last
    accepted coordinate is then kept and the timer is not reset: the row
    loop has started it if it had never been started, and a timer that
    was already running is left exactly as it was.  In the remaining
    case, a different coordinate with at least 500 ms on the timer, the
    coordinate is recorded, the timer is reset to zero and the mapped
    character is returned. *)
Theorem keypadScan_debounce (pins : Keypad.Pins) (t : Z)
        (s : Keypad.ScanState) (r c : Z) :
  Keypad.matched pins r c ->
  let out := Keypad.keypadScan pins t s in
  let swallow :=
    Keypad.last_key s = (r, c) \/
    Keypad.elapsed_ms s t < Keypad.debounce_time in
  (fst out = "x"%char <-> swallow) /\
  (swallow ->
   Keypad.last_key (snd out) = Keypad.last_key s /\
   Keypad.debounceTimer (snd out) = Timer.start (Keypad.debounceTimer s) t) /\
  (~ swallow ->
   fst out = Keypad.key_at (r, c) /\
   Keypad.last_key (snd out) = (r, c) /\
   Timer.read_ms (Keypad.debounceTimer (snd out)) t = 0) /\
  (swallow -> Timer.running (Keypad.debounceTimer s) = true ->
   Keypad.debounceTimer (snd out) = Keypad.debounceTimer s).
Proof.
  intros Hm out swallow.
  destruct (keypadScan_debounce_cases pins t s r c Hm) as (H1 & H2 & H3).
  split; [exact H1|]. split; [exact H2|]. split; [exact H3|].
  intros Hs Hrun. destruct (H2 Hs) as [_ Ht].
  fold out in Ht. rewrite Ht. unfold Timer.start. now rewrite Hrun.
Qed.

(** The theorem at the first key ever pressed, ['5'] at clock 0. *)
Lemma keypadScan_debounce_witness :
  Keypad.matched (press 1 1) 1 1 /\
  (fst (Keypad.keypadScan (press 1 1) 0 Keypad.scan_init) = "x"%char <->
   Keypad.last_key Keypad.scan_init = (1, 1) \/
   Keypad.elapsed_ms Keypad.scan_init 0 < Keypad.debounce_time).
Proof.
  split.
  - apply press_matched; lia.
  - destruct (keypadScan_debounce (press 1 1) 0 Keypad.scan_init 1 1
                ltac:(apply press_matched; lia)) as (H & _).
    exact H.
Defined.

(** C1, as written, fails.  Key ['1'] is held from 600 ms on and accepted
    at 1200 ms; at 1300 ms key ['5'] is down instead.  The coordinate
    differs from the accepted one, yet the scan returns the no-key
    character because only 100 ms have passed. *)
Lemma keypadScan_swallows_other_key :
  let s1 := snd (Keypad.keypadScan (press 0 0) 600000 Keypad.scan_init) in
  let a2 := Keypad.keypadScan (press 0 0) 1200000 s1 in
  let s2 := snd a2 in
  fst a2 = "1"%char /\
  Keypad.last_key s2 = (0, 0) /\
  Keypad.elapsed_ms s2 1300000 = 100 /\
  ~ (fst (Keypad.keypadScan (press 1 1) 1300000 s2) = "x"%char <->
     Keypad.last_key s2 = (1, 1) /\
     Keypad.elapsed_ms s2 1300000 < Keypad.debounce_time).
Proof.
  cbv zeta. repeat split; try (vm_compute; reflexivity).
  intros [H _].
  assert (E : fst (Keypad.keypadScan (press 1 1) 1300000
                (snd (Keypad.keypadScan (press 0 0) 1200000
                   (snd (Keypad.keypadScan (press 0 0) 600000 Keypad.scan_init)))))
              = "x"%char) by (vm_compute; reflexivity).
  destruct (H E) as [K _]. vm_compute in K. discriminate K.
Qed.

(** ** The loop body *)

Section LoopBody.

Import Clock.

Arguments Timer.read_ms : simpl never.
Arguments entry_value : simpl never.

(** Evaluate the sections of the loop body on a state given by its fields. *)
Ltac unfold_body :=
  cbv beta iota zeta delta
    [loop_body screen_update time_update key_press check_entry
     check_hour check_min check_am_pm enter_error reset_entries prompt_frame
     set_mode set_entry_mode set_index set_current_entry set_hr set_min
     set_update_LCD set_timer push_rtc push_lcd
     mode entry_mode index current_entry hr min update_LCD timer
     rtc_log lcd_log].

(** Evaluate the field updates alone. *)
Ltac eval_state :=
  cbv beta iota zeta delta
    [enter_error reset_entries
     set_mode set_entry_mode set_index set_current_entry set_hr set_min
     set_update_LCD set_timer push_rtc push_lcd
     mode entry_mode index current_entry hr min update_LCD timer
     rtc_log lcd_log].

Ltac unfold_consts :=
  unfold HOUR, MIN, AM_PM, ENTER, NORMAL_MODE, SET_MODE, ERROR_MODE in *.

(** Run the time-update and screen-update sections on a state whose
    mode and entry field are known. *)
Ltac finish_pass :=
  unfold time_update; eval_state; unfold_consts; simpl;
  unfold screen_update, prompt_frame; eval_state; simpl.

Ltac split_ifs :=
  repeat match goal with
         | |- context [if ?b then _ else _] => destruct b eqn:?; simpl
         end.

Lemma slot_ok_code (c : ascii) : slot_ok c -> 48 <= code c <= 95.
Proof.
  unfold slot_ok, slot_chars. simpl.
  intros H.
  repeat (destruct H as [<- | H]; [vm_compute; split; discriminate|]).
  destruct H.
Qed.

Lemma entry_value_nonneg (e : Entry) : entry_ok e -> 0 <= entry_value e.
Proof.
  intros [H0 H1]. apply slot_ok_code in H0, H1.
  unfold entry_value. change (code "0") with 48. lia.
Qed.

Lemma blank_entry_ok : entry_ok blank_entry.
Proof. split; vm_compute; auto. Qed.

Lemma entry_write_ok (e : Entry) (i : Z) (c : ascii) :
  entry_ok e -> slot_ok c -> entry_ok (entry_write e i c).
Proof.
  intros [H0 H1] Hc. unfold entry_write.
  destruct (i =? 0); [split; auto|]. destruct (i =? 1); split; auto.
Qed.

Lemma key_ok_cases (k : ascii) :
  key_ok k ->
  k = "x"%char \/ k = "*"%char \/ k = "D"%char \/ k = "#"%char \/
  (slot_ok k /\ chr_eqb k "x" = false /\ chr_eqb k "*" = false /\
   chr_eqb k "D" = false /\ chr_eqb k "#" = false).
Proof.
  intros [-> | H]; [auto|].
  unfold Keypad.keys, Keypad.key_map in H; simpl in H.
  repeat (destruct H as [<- | H];
          [first [ now (left; reflexivity)
                 | now (right; left; reflexivity)
                 | now (right; right; left; reflexivity)
                 | now (right; right; right; left; reflexivity)
                 | (right; right; right; right; vm_compute; tauto) ] |]).
  destruct H.
Qed.

Lemma key_press_ok (k : ascii) (t : Z) (s : State) :
  key_ok k -> state_ok s -> fields_ok (key_press k t s).
Proof.
  destruct s as [m e i c h mi u tm rl ll].
  unfold state_ok, fields_ok; simpl.
  intros Hk [(He & Hi & Hm & Hem & Hhr & Hmin & Hhr' & Hlog) Hne].
  pose proof blank_entry_ok as Hb.
  pose proof (entry_value_nonneg _ He) as Hv.
  pose proof He as [He0 He1]. pose proof Hb as [Hb0 Hb1].
  destruct (key_ok_cases k Hk) as [-> | [-> | [-> | [-> | (Hs & Ex & Es & Ed & Eh)]]]].
  - unfold key_press; simpl. tauto.
  - unfold_body; unfold_consts; simpl.
    destruct (m =? 2); simpl; repeat split; auto; lia.
  - unfold_body; unfold_consts; simpl.
    destruct (m =? 2); simpl; repeat split; auto; lia.
  - unfold_body; unfold_consts; simpl.
    destruct (m =? 2) eqn:E2; simpl; [repeat split; auto; lia|].
    destruct (m =? 1) eqn:E1; simpl; [|repeat split; auto; lia].
    destruct (e =? 0) eqn:F0; simpl.
    { destruct ((entry_value c <? 1)
                || (entry_value c >? 12)) eqn:C; simpl;
        repeat split; auto; lia. }
    destruct (e =? 1) eqn:F1; simpl.
    { destruct (entry_value c >? 59) eqn:C; simpl;
        repeat split; auto; lia. }
    destruct (e =? 2) eqn:F2; simpl; [|repeat split; auto; lia].
    destruct (_ || _) eqn:C; simpl; [repeat split; auto; lia|].
    destruct (chr_eqb (slot0 c) "P") eqn:C'; simpl;
      [|repeat split; auto; lia].
    destruct (h =? 12) eqn:C12; simpl; repeat split; auto; lia.
  - unfold key_press. rewrite Ex, Es, Ed, Eh. simpl.
    destruct (m =? ERROR_MODE) eqn:E2; simpl;
      [tauto|].
    destruct (m =? SET_MODE) eqn:E1; simpl;
      [|tauto].
    unfold_body; simpl.
    split; [apply entry_write_ok; auto|].
    repeat split; auto; try lia; destruct (i =? 0); lia.
Qed.

Lemma time_update_ok (s : State) : fields_ok s -> state_ok (time_update s).
Proof.
  destruct s as [m e i c h mi u tm rl ll].
  unfold state_ok, fields_ok; simpl.
  intros ([He0 He1] & Hi & Hm & Hem & Hhr & Hmin & Hhr' & Hlog).
  unfold time_update; simpl.
  destruct (e =? ENTER) eqn:E; unfold_consts.
  - unfold_body; unfold_consts; simpl.
    pose proof blank_entry_ok as [Hb0 Hb1].
    repeat split; auto; try lia.
    constructor; auto. unfold commit_ok. lia.
  - simpl. repeat split; auto; lia.
Qed.

Lemma screen_update_ok (env : Env) (s : State) :
  state_ok s -> state_ok (screen_update env s).
Proof.
  destruct s as [m e i c h mi u tm rl ll].
  unfold state_ok, fields_ok; simpl.
  intros [([He0 He1] & Hi & Hm & Hem & Hhr & Hmin & Hhr' & Hlog) Hne].
  unfold screen_update; simpl.
  split_ifs; unfold_body; unfold_consts; simpl; repeat split; auto; lia.
Qed.

Lemma loop_body_ok (k : ascii) (env : Env) (s : State) :
  key_ok k -> state_ok s -> state_ok (loop_body k env s).
Proof.
  intros Hk Hs. unfold loop_body.
  apply screen_update_ok, time_update_ok, key_press_ok; auto.
Qed.

Lemma init_ok (t0 : Z) : state_ok (init t0).
Proof.
  unfold state_ok, fields_ok, init; unfold_consts; simpl.
  pose proof blank_entry_ok as [Hb0 Hb1]. repeat split; auto; try lia.
Qed.

(** Every state the program reaches satisfies the invariant. *)
Lemma main_run_ok (ins : list (Keypad.Pins * Env)) :
  forall y, state_ok (st y) -> state_ok (st (main_run ins y)).
Proof.
  induction ins as [| [pins env] rest IH]; intros y Hy; simpl; auto.
  apply IH. unfold main_iter.
  pose proof (keypadScan_returns_key pins (now env) (scan y)) as Hk.
  destruct (Keypad.keypadScan pins (now env) (scan y)) as [k sc]; simpl in *.
  apply loop_body_ok; auto.
Qed.


(** ** Candidate time *)

(** C3, as the code has it: the hour and minute variables are assigned
    before they are checked, so a rejected value does get stored; what
    holds at every reachable state is that once the entry field has moved
    past Hour the hour variable is within 1..12, once it has moved past
    Minute the minute variable is within 0..59, and every time handed to
    the clock has hour 1..23, minute 0..59 and second 0. *)
Theorem candidate_time_invariant (ins : list (Keypad.Pins * Env)) (t0 : Z) :
  let s := st (main_run ins (sys_init t0)) in
  (entry_mode s = MIN \/ entry_mode s = AM_PM -> 1 <= hr s <= 12) /\
  (entry_mode s = AM_PM -> 0 <= min s <= 59) /\
  Forall commit_ok (rtc_log s).
Proof.
  cbv zeta.
  destruct (main_run_ok ins (sys_init t0) (init_ok t0))
    as [(_ & _ & _ & Hem & Hhr & Hmin & _ & Hlog) _].
  unfold_consts. repeat split; auto; try (apply Hhr; lia); apply Hmin; lia.
Qed.

(** The invariant after [* 0 1 # 3 0 #] has been typed. *)
Lemma candidate_time_invariant_witness :
  let s := st (main_run
                 (typed [(3,0); (3,0); (3,1); (0,0); (3,2); (0,2); (3,1); (3,2)] 0)
                 (sys_init 0)) in
  entry_mode s = AM_PM /\ 1 <= hr s <= 12 /\ 0 <= min s <= 59.
Proof.
  cbv zeta.
  pose proof (candidate_time_invariant
                (typed [(3,0); (3,0); (3,1); (0,0); (3,2); (0,2); (3,1); (3,2)] 0) 0)
    as H.
  cbv zeta in H. destruct H as (H1 & H2 & _).
  split; [vm_compute; reflexivity|].
  split; [apply H1; right; vm_compute; reflexivity
         | apply H2; vm_compute; reflexivity].
Defined.

(** C3, as written, fails: after [* 1 3 #] the program is in error mode
    and the hour variable holds the rejected 13. *)
Lemma rejected_hour_is_stored :
  let s := st (main_run (typed [(3,0); (3,0); (0,0); (0,2); (3,2)] 0)
                        (sys_init 0)) in
  mode s = ERROR_MODE /\ hr s = 13 /\ ~ (1 <= hr s <= 12).
Proof.
  cbv zeta. split; [vm_compute; reflexivity|].
  split; [vm_compute; reflexivity|].
  intros [_ H]. vm_compute in H. apply H. reflexivity.
Qed.


(** ** Setting the time *)

(** The screen update never touches the entry field, the buffer, the
    candidate time or the clock, and outside error mode it leaves the
    mode and the cursor alone as well. *)
Lemma screen_update_keeps (env : Env) (s : State) :
  entry_mode (screen_update env s) = entry_mode s /\
  current_entry (screen_update env s) = current_entry s /\
  hr (screen_update env s) = hr s /\
  min (screen_update env s) = min s /\
  rtc_log (screen_update env s) = rtc_log s /\
  (mode s <> ERROR_MODE ->
   mode (screen_update env s) = mode s /\
   index (screen_update env s) = index s).
Proof.
  destruct s as [m e i c h mi u tm rl ll].
  unfold screen_update; simpl.
  destruct ((m =? NORMAL_MODE) && (Timer.read_ms tm (now env) >=? 1000));
    [unfold_body; repeat split; auto|].
  destruct ((m >=? SET_MODE) && u); [unfold_body; repeat split; auto|].
  destruct (m =? ERROR_MODE) eqn:E3; simpl.
  - apply Z.eqb_eq in E3.
    destruct (Timer.read_ms tm (now env) >=? 2000);
      unfold_body; repeat split; auto; contradiction.
  - repeat split; auto.
Qed.

Lemma key_press_time_update_core (k : ascii) (t t' : Z) (s s' : State) :
  core s = core s' ->
  core (time_update (key_press k t s))
  = core (time_update (key_press k t' s')).
Proof.
  destruct s as [m e i c h mi u tm rl ll], s' as [m' e' i' c' h' mi' u' tm' rl' ll'].
  unfold core; simpl. intros [= <- <- <- <- <- <- <-].
  unfold key_press; simpl.
  destruct (negb (chr_eqb k "x") && negb (m =? ERROR_MODE)); simpl;
    [|unfold time_update; simpl; destruct (e =? ENTER); reflexivity].
  destruct (chr_eqb k "*"); [reflexivity|].
  destruct (chr_eqb k "D"); [reflexivity|].
  destruct (m =? SET_MODE);
    [|unfold time_update; simpl; destruct (e =? ENTER); reflexivity].
  destruct (negb (chr_eqb k "#")); simpl.
  { unfold time_update; simpl; destruct (e =? ENTER); reflexivity. }
  unfold check_entry; simpl.
  destruct (e =? HOUR).
  { unfold check_hour; simpl.
    destruct ((entry_value c <? 1) || (entry_value c >? 12)); simpl;
      unfold time_update; simpl;
      [destruct (e =? ENTER) | destruct (e + 1 =? ENTER)]; reflexivity. }
  destruct (e =? MIN).
  { unfold check_min; simpl.
    destruct (entry_value c >? 59); simpl;
      unfold time_update; simpl;
      [destruct (e =? ENTER) | destruct (e + 1 =? ENTER)]; reflexivity. }
  destruct (e =? AM_PM).
  { unfold check_am_pm; simpl.
    destruct (negb (chr_eqb (slot0 c) "A") && negb (chr_eqb (slot0 c) "P")
              || negb (chr_eqb (slot1 c) "M")); simpl.
    - unfold time_update; simpl; destruct (e =? ENTER); reflexivity.
    - destruct (chr_eqb (slot0 c) "P" && negb (h =? 12)); simpl;
        unfold time_update; simpl; destruct (e + 1 =? ENTER); reflexivity. }
  unfold time_update; simpl; destruct (e =? ENTER); reflexivity.
Qed.

Lemma loop_body_core (k : ascii) (env : Env) (s : State) :
  mode (time_update (key_press k (now env) s)) <> ERROR_MODE ->
  core (loop_body k env s) = core (time_update (key_press k (now env) s)).
Proof.
  intros H. unfold loop_body.
  destruct (screen_update_keeps env (time_update (key_press k (now env) s)))
    as (E1 & E2 & E3 & E4 & E5 & E6).
  destruct (E6 H) as [E7 E8].
  unfold core. now rewrite E1, E2, E3, E4, E5, E7, E8.
Qed.

(** As long as no key leads into error mode, the keys alone decide the
    core of the state. *)
Lemma run_keys_core (ins : list (ascii * Env)) :
  forall s r,
    core s = core r ->
    never_error (map fst ins) r = true ->
    core (run_keys ins s) = core (key_run (map fst ins) r).
Proof.
  induction ins as [| [k env] rest IH]; intros s r Hc Hne; simpl; auto.
  simpl in Hne. apply andb_true_iff in Hne as [Hm Hrest].
  apply IH; auto.
  pose proof (key_press_time_update_core k (now env) 0 s r Hc) as Hk.
  fold (key_step k r) in Hk.
  rewrite loop_body_core; auto.
  assert (Em : mode (time_update (key_press k (now env) s)) = mode (key_step k r)).
  { unfold core in Hk. now inversion Hk. }
  rewrite Em. apply negb_true_iff, Z.eqb_neq in Hm. exact Hm.
Qed.

Lemma run_keys_by_core (ins : list (ascii * Env)) (s : State) c :
  never_error (map fst ins) s = true ->
  core (key_run (map fst ins) s) = c ->
  core (run_keys ins s) = c.
Proof.
  intros Hne <-. now apply run_keys_core.
Qed.

(** C5: from the initial state the keys [* 0 1 # 3 0 # P M #], whatever
    the clock and the other inputs read at each pass, give exactly one
    clock commit, 13:30:00, and leave the mode normal, the entry field at
    Hour and the buffer blank. *)
Theorem set_0130PM_commits_1330 (t0 : Z) (e1 e2 e3 e4 e5 e6 e7 e8 e9 e10 : Env) :
  let s := run_keys
             [ ("*", e1); ("0", e2); ("1", e3); ("#", e4); ("3", e5);
               ("0", e6); ("#", e7); ("P", e8); ("M", e9); ("#", e10) ]%char
             (init t0) in
  rtc_log s = [(13, 30, 0)] /\
  mode s = NORMAL_MODE /\
  entry_mode s = HOUR /\
  current_entry s = blank_entry.
Proof.
  cbv zeta.
  match goal with
  | |- context [run_keys ?ins ?s] =>
      pose proof (run_keys_by_core ins s
                    (NORMAL_MODE, HOUR, 0, blank_entry, 13, 30, [(13, 30, 0)])
                    ltac:(vm_compute; reflexivity)
                    ltac:(vm_compute; reflexivity)) as H;
      set (final := run_keys ins s) in *
  end.
  clearbody final. unfold core in H.
  inversion H as [[Hm He Hi Hc Hh Hmi Hr]].
  repeat split; reflexivity.
Qed.

(** C2, at the input where the code departs from it: [* 1 2 # 0 0 # A M #]
    enters 12:00 AM, and the hour handed to the clock is 12, not 0. *)
Theorem set_1200AM_commits_12 (t0 : Z) (e1 e2 e3 e4 e5 e6 e7 e8 e9 e10 : Env) :
  rtc_log
    (run_keys
       [ ("*", e1); ("1", e2); ("2", e3); ("#", e4); ("0", e5);
         ("0", e6); ("#", e7); ("A", e8); ("M", e9); ("#", e10) ]%char
       (init t0))
  = [(12, 0, 0)].
Proof.
  match goal with
  | |- context [run_keys ?ins ?s] =>
      pose proof (run_keys_by_core ins s
                    (NORMAL_MODE, HOUR, 0, blank_entry, 12, 0, [(12, 0, 0)])
                    ltac:(vm_compute; reflexivity)
                    ltac:(vm_compute; reflexivity)) as H;
      set (final := run_keys ins s) in *
  end.
  clearbody final. unfold core in H.
  inversion H as [[Hm He Hi Hc Hh Hmi Hr]]. reflexivity.
Qed.

(** The hour the AmPm check leaves for the commit: 12 is added for ['P']
    unless the hour is 12, and the hour is kept as typed otherwise, so
    5 PM gives 17, 12 PM gives 12, and 12 AM gives 12 as well. *)
Lemma check_am_pm_hour (t : Z) (s : State) :
  (slot0 (current_entry s) = "A"%char \/ slot0 (current_entry s) = "P"%char) ->
  slot1 (current_entry s) = "M"%char ->
  let s' := check_am_pm t s in
  entry_mode s' = entry_mode s + 1 /\
  mode s' = mode s /\
  min s' = min s /\
  hr s' = if chr_eqb (slot0 (current_entry s)) "P" && negb (hr s =? 12)
          then hr s + 12 else hr s.
Proof.
  destruct s as [m e i [c0 c1] h mi u tm rl ll]; simpl.
  intros H0 ->. unfold check_am_pm; simpl.
  destruct H0 as [-> | ->]; simpl; [repeat split; auto|].
  destruct (h =? 12); simpl; repeat split; auto.
Qed.


(** ** The clock line *)

(** What the clock line shows for each hour of the day: the hour reduced
    to 1..12, and ["PM"] only from 13 on. *)
Lemma clock_line_hour (h : Z) :
  0 <= h <= 23 ->
  display_hour h = (if h mod 12 =? 0 then 12 else h mod 12) /\
  (am_pm_suffix h = "PM"%string <-> 13 <= h).
Proof.
  intros Hh. unfold display_hour, am_pm_suffix.
  rewrite Z.rem_mod_nonneg by lia. split; [reflexivity|].
  destruct (h >? 12) eqn:E; split; intros H; try lia; try reflexivity.
  discriminate H.
Qed.

(** C4, at the input where the code departs from it: a pass in normal
    mode at noon, one second after start, draws 12:00:00 with the suffix
    ["AM"]. *)
Theorem noon_renders_as_AM :
  lcd_log (loop_body "x" (mkEnv 1000000 12 0 0 (fun _ => 20) false) (init 0))
  = [ClockLine 12 0 0 "AM" 20 "C"].
Proof. vm_compute. reflexivity. Qed.

(** ** Error mode *)

(** In error mode the key-press section does nothing. *)
Lemma key_press_error (k : ascii) (t : Z) (s : State) :
  mode s = ERROR_MODE -> key_press k t s = s.
Proof.
  intros H. unfold key_press. rewrite H. simpl.
  now rewrite andb_false_r.
Qed.

Lemma time_update_idle (s : State) :
  entry_mode s <> ENTER -> time_update s = s.
Proof.
  intros H. unfold time_update.
  destruct (Z.eqb_spec (entry_mode s) ENTER); [contradiction | reflexivity].
Qed.

(** An error-mode pass after the banner is drawn and before the dwell
    is over changes nothing. *)
Lemma error_idle (k : ascii) (env : Env) (s : State) :
  mode s = ERROR_MODE -> entry_mode s <> ENTER -> update_LCD s = false ->
  Timer.read_ms (timer s) (now env) < 2000 ->
  loop_body k env s = s.
Proof.
  intros Hm He Hu Ht. unfold loop_body.
  rewrite key_press_error, time_update_idle by assumption.
  unfold screen_update. rewrite Hm, Hu. simpl.
  destruct (Z.geb_spec (Timer.read_ms (timer s) (now env)) 2000);
    [lia | reflexivity].
Qed.

(** The first error-mode pass with the dwell over steps down to Set. *)
Lemma error_recover (k : ascii) (env : Env) (s : State) :
  mode s = ERROR_MODE -> entry_mode s <> ENTER -> update_LCD s = false ->
  2000 <= Timer.read_ms (timer s) (now env) ->
  loop_body k env s
  = mkState SET_MODE (entry_mode s) 0 (current_entry s) (hr s) (min s) true
            (Timer.reset (timer s) (now env)) (rtc_log s) (lcd_log s).
Proof.
  intros Hm He Hu Ht. unfold loop_body.
  rewrite key_press_error, time_update_idle by assumption.
  destruct s as [m e i c h mi u tm rl ll]; simpl in *. subst m u.
  unfold screen_update; simpl.
  destruct (Z.geb_spec (Timer.read_ms tm (now env)) 2000);
    [reflexivity | lia].
Qed.

(** A ['#'] in Set mode that ends the pass in error mode: the field was
    Hour, Minute or AmPm, it is unchanged, the buffer is blank, the
    banner has been drawn, the timer was reset at this pass, and nothing
    went to the clock. *)
Lemma failed_check_shape (env : Env) (s : State) :
  mode s = SET_MODE ->
  mode (loop_body "#" env s) = ERROR_MODE ->
  0 <= entry_mode s <= 2 /\
  exists h' m',
    loop_body "#" env s
    = mkState ERROR_MODE (entry_mode s) (index s) blank_entry h' m' false
              (Timer.reset (timer s) (now env)) (rtc_log s)
              (ErrorBanner :: lcd_log s).
Proof.
  destruct s as [m e i c h mi u tm rl ll]; simpl. intros ->.
  unfold loop_body, key_press; simpl. unfold check_entry; simpl.
  destruct (Z.eqb_spec e HOUR) as [-> | N0].
  { unfold check_hour; eval_state.
    destruct ((entry_value c <? 1) || (entry_value c >? 12)); finish_pass.
    - intros _. split; [lia|]. eauto.
    - discriminate. }
  destruct (Z.eqb_spec e MIN) as [-> | N1].
  { unfold check_min; eval_state.
    destruct (entry_value c >? 59); finish_pass.
    - intros _. split; [lia|]. eauto.
    - discriminate. }
  destruct (Z.eqb_spec e AM_PM) as [-> | N2].
  { unfold check_am_pm; eval_state.
    destruct (negb (chr_eqb (slot0 c) "A") && negb (chr_eqb (slot0 c) "P")
              || negb (chr_eqb (slot1 c) "M")).
    - finish_pass. intros _. split; [lia|]. eauto.
    - destruct (chr_eqb (slot0 c) "P" && negb (h =? 12));
        finish_pass;
        destruct (Timer.read_ms tm (now env) >=? 1000); simpl; discriminate. }
  eval_state. unfold time_update; eval_state.
  destruct (e =? ENTER); unfold screen_update; eval_state; simpl;
    [destruct (Timer.read_ms tm (now env) >=? 1000); simpl|]; discriminate.
Qed.


(** ** The ['#'] key, field by field *)

Lemma hash_hour (env : Env) (s : State) :
  mode s = SET_MODE -> entry_mode s = HOUR ->
  let v := entry_value (current_entry s) in
  let s' := loop_body "#" env s in
  hr s' = v /\
  (v < 1 \/ 12 < v -> mode s' = ERROR_MODE /\ entry_mode s' = HOUR) /\
  (1 <= v <= 12 -> mode s' = SET_MODE /\ entry_mode s' = MIN).
Proof.
  destruct s as [m e i c h mi u tm rl ll]; simpl. intros -> ->.
  unfold loop_body, key_press; simpl. unfold check_entry; simpl.
  unfold check_hour; eval_state.
  destruct ((entry_value c <? 1) || (entry_value c >? 12)) eqn:E;
    finish_pass; repeat split; auto; lia.
Qed.

Lemma hash_min (env : Env) (s : State) :
  mode s = SET_MODE -> entry_mode s = MIN ->
  let v := entry_value (current_entry s) in
  let s' := loop_body "#" env s in
  min s' = v /\
  (59 < v -> mode s' = ERROR_MODE /\ entry_mode s' = MIN) /\
  (v <= 59 -> mode s' = SET_MODE /\ entry_mode s' = AM_PM).
Proof.
  destruct s as [m e i c h mi u tm rl ll]; simpl. intros -> ->.
  unfold loop_body, key_press; simpl. unfold check_entry; simpl.
  unfold check_min; eval_state.
  destruct (entry_value c >? 59) eqn:E;
    finish_pass; repeat split; auto; lia.
Qed.

Lemma hash_am_pm_bad (env : Env) (s : State) :
  mode s = SET_MODE -> entry_mode s = AM_PM ->
  (slot0 (current_entry s) <> "A"%char /\ slot0 (current_entry s) <> "P"%char)
  \/ slot1 (current_entry s) <> "M"%char ->
  mode (loop_body "#" env s) = ERROR_MODE.
Proof.
  destruct s as [m e i [c0 c1] h mi u tm rl ll]; simpl. intros -> -> H.
  unfold loop_body, key_press; simpl. unfold check_entry; simpl.
  unfold check_am_pm; eval_state; simpl.
  assert (E : negb (chr_eqb c0 "A") && negb (chr_eqb c0 "P")
              || negb (chr_eqb c1 "M") = true).
  { apply orb_true_iff. destruct H as [[Ha Hp] | Hm]; [left | right].
    - apply chr_eqb_neq in Ha, Hp. now rewrite Ha, Hp.
    - apply chr_eqb_neq in Hm. now rewrite Hm. }
  rewrite E. finish_pass. reflexivity.
Qed.

(** The key-press section never writes to the clock. *)
Lemma key_press_rtc_log (k : ascii) (t : Z) (s : State) :
  rtc_log (key_press k t s) = rtc_log s.
Proof.
  destruct s as [m e i c h mi u tm rl ll].
  unfold key_press, check_entry, check_hour, check_min, check_am_pm;
    eval_state.
  split_ifs; reflexivity.
Qed.

(** A pass writes to the clock exactly when the key-press section leaves
    the entry field at [ENTER]. *)
Lemma loop_body_rtc_log (k : ascii) (env : Env) (s : State) :
  rtc_log (loop_body k env s)
  = if entry_mode (key_press k (now env) s) =? ENTER
    then (hr (key_press k (now env) s), min (key_press k (now env) s), 0)
           :: rtc_log s
    else rtc_log s.
Proof.
  unfold loop_body.
  destruct (screen_update_keeps env (time_update (key_press k (now env) s)))
    as (_ & _ & _ & _ & -> & _).
  pose proof (key_press_rtc_log k (now env) s) as Hk.
  destruct (key_press k (now env) s) as [m e i c h mi u tm rl ll].
  simpl in *. unfold time_update; simpl.
  destruct (e =? ENTER); simpl; now rewrite Hk.
Qed.


(** ** Error mode and recovery *)

Lemma screen_update_error (env : Env) (s : State) :
  mode s = ERROR_MODE ->
  let s' := screen_update env s in
  (index s' = index s \/
   (2000 <= Timer.read_ms (timer s) (now env) /\ index s' = 0)) /\
  (mode s' <> ERROR_MODE ->
   2000 <= Timer.read_ms (timer s) (now env) /\ mode s' = SET_MODE).
Proof.
  destruct s as [m e i c h mi u tm rl ll]; simpl. intros ->.
  unfold screen_update; eval_state; simpl.
  destruct u; simpl; [split; [auto | intros Hx; now elim Hx]|].
  destruct (Z.geb_spec (Timer.read_ms tm (now env)) 2000); simpl.
  - split; [right | intros _]; split; auto; lia.
  - split; [auto | intros Hx; now elim Hx].
Qed.

(** C6: at every reachable state in error mode, a pass of the loop gives
    the same state whatever the key is; the buffer, the candidate hour
    and minute, the entry field and the clock are unchanged, the cursor
    moves only when the dwell is over, and the mode leaves Error only for
    ['D'], ['*'] or an expired 2-second timer -- in fact only for the
    timer, and then to Set. *)
Theorem error_mode_ignores_keys
        (ins : list (Keypad.Pins * Env)) (t0 : Z) (k : ascii) (env : Env) :
  let s := st (main_run ins (sys_init t0)) in
  mode s = ERROR_MODE ->
  let s' := loop_body k env s in
  s' = loop_body "x" env s /\
  current_entry s' = current_entry s /\
  hr s' = hr s /\ min s' = min s /\
  entry_mode s' = entry_mode s /\
  rtc_log s' = rtc_log s /\
  (index s' = index s \/
   (2000 <= Timer.read_ms (timer s) (now env) /\ index s' = 0)) /\
  (mode s' <> ERROR_MODE ->
   k = "D"%char \/ k = "*"%char \/
   2000 <= Timer.read_ms (timer s) (now env)) /\
  (mode s' <> ERROR_MODE ->
   2000 <= Timer.read_ms (timer s) (now env) /\ mode s' = SET_MODE).
Proof.
  cbv zeta.
  destruct (main_run_ok ins (sys_init t0) (init_ok t0)) as [_ Hne].
  set (s := st (main_run ins (sys_init t0))) in *. clearbody s.
  intros Hm. unfold loop_body.
  rewrite !key_press_error, !time_update_idle by assumption.
  destruct (screen_update_keeps env s) as (E1 & E2 & E3 & E4 & E5 & _).
  destruct (screen_update_error env s Hm) as [Hi Hmode].
  repeat split; auto; try (now apply Hmode).
  intros H. right; right. now apply Hmode.
Qed.

(** The theorem in the pass after [* 1 3 #], with key ['5'] pressed. *)
Lemma error_mode_ignores_keys_witness :
  let s := st (main_run (typed [(3,0); (3,0); (0,0); (0,2); (3,2)] 0)
                        (sys_init 0)) in
  mode s = ERROR_MODE /\
  loop_body "5" (env_at 5000000) s = loop_body "x" (env_at 5000000) s.
Proof.
  cbv zeta. split; [vm_compute; reflexivity|].
  apply (error_mode_ignores_keys
           (typed [(3,0); (3,0); (0,0); (0,2); (3,2)] 0) 0 "5"
           (env_at 5000000)).
  vm_compute; reflexivity.
Defined.

(** While the dwell is not over, nothing moves. *)
Lemma error_wait (ins : list (ascii * Env)) (s : State) :
  mode s = ERROR_MODE -> entry_mode s <> ENTER -> update_LCD s = false ->
  forallb (fun ke => Timer.read_ms (timer s) (now (snd ke)) <? 2000) ins
  = true ->
  run_keys ins s = s.
Proof.
  intros Hm He Hu. induction ins as [| [k e] rest IH]; simpl; auto.
  intros H. apply andb_true_iff in H as [H1 H2].
  rewrite error_idle; auto. lia.
Qed.

(** C7: after a ['#'] in Set mode has failed validation, the dwell timer
    reads 0 at that pass; the mode is still Error after any number of
    passes at which the timer reads below 2000 ms, whatever the keys; and
    the first pass at which it reads 2000 ms or more ends in Set mode with
    the cursor at slot 0, both slots blank, and the entry field that
    failed. *)
Theorem error_recovery_after_dwell
        (s0 : State) (env0 : Env) (ins : list (ascii * Env))
        (k : ascii) (env : Env) :
  mode s0 = SET_MODE ->
  let s1 := loop_body "#" env0 s0 in
  mode s1 = ERROR_MODE ->
  forallb (fun ke => Timer.read_ms (timer s1) (now (snd ke)) <? 2000) ins
  = true ->
  2000 <= Timer.read_ms (timer s1) (now env) ->
  Timer.read_ms (timer s1) (now env0) = 0 /\
  mode (run_keys ins s1) = ERROR_MODE /\
  let s2 := loop_body k env (run_keys ins s1) in
  mode s2 = SET_MODE /\
  index s2 = 0 /\
  current_entry s2 = blank_entry /\
  entry_mode s2 = entry_mode s0.
Proof.
  intros H0 s1 H1 Hwait Hdone.
  destruct (failed_check_shape env0 s0 H0 H1) as (He & h' & m' & Es).
  fold s1 in Es.
  assert (He' : entry_mode s1 <> ENTER)
    by (rewrite Es; simpl; unfold ENTER; lia).
  assert (Hu : update_LCD s1 = false) by (rewrite Es; reflexivity).
  rewrite (error_wait ins s1 H1 He' Hu Hwait).
  split; [rewrite Es; simpl; apply read_ms_reset|].
  split; [assumption|].
  cbv zeta. rewrite (error_recover k env s1 H1 He' Hu Hdone). simpl.
  rewrite Es; simpl. auto.
Qed.

(** The theorem after [* 1 3 #]: two passes 1.5 s after the failure, with
    and without a key, then one at exactly 2 s. *)
Lemma error_recovery_after_dwell_witness :
  let s0 := run_keys (keys_at 0 [ "*"; "1"; "3" ]%char) (init 0) in
  let s1 := loop_body "#" (env_at 1000000) s0 in
  let waits := keys_at 2500000 [ "5"; "x" ]%char in
  mode s0 = SET_MODE /\
  mode s1 = ERROR_MODE /\
  mode (run_keys waits s1) = ERROR_MODE /\
  mode (loop_body "x" (env_at 3000000) (run_keys waits s1)) = SET_MODE /\
  index (loop_body "x" (env_at 3000000) (run_keys waits s1)) = 0 /\
  current_entry (loop_body "x" (env_at 3000000) (run_keys waits s1))
  = blank_entry.
Proof.
  cbv zeta.
  assert (H0 : mode (run_keys (keys_at 0 [ "*"; "1"; "3" ]%char) (init 0))
               = SET_MODE) by (vm_compute; reflexivity).
  assert (H1 : mode (loop_body "#" (env_at 1000000)
                       (run_keys (keys_at 0 [ "*"; "1"; "3" ]%char) (init 0)))
               = ERROR_MODE) by (vm_compute; reflexivity).
  split; [exact H0|]. split; [exact H1|].
  assert (Hd : Timer.read_ms
                 (timer (loop_body "#" (env_at 1000000)
                           (run_keys (keys_at 0 [ "*"; "1"; "3" ]%char) (init 0))))
                 (now (env_at 3000000)) = 2000) by (vm_compute; reflexivity).
  destruct (error_recovery_after_dwell
              (run_keys (keys_at 0 [ "*"; "1"; "3" ]%char) (init 0))
              (env_at 1000000) (keys_at 2500000 [ "5"; "x" ]%char)
              "x" (env_at 3000000) H0 H1
              ltac:(vm_compute; reflexivity)
              ltac:(rewrite Hd; lia))
    as (_ & Hw & Hm & Hi & Hc & _).
  repeat split; assumption.
Defined.


(** ** Validation failures and the clock *)

(** C8: a ['#'] in Set mode that fails validation writes nothing to the
    clock and leaves the entry field where it was; once the dwell is over
    the program is back in Set mode on that same field; and in any pass
    at all, the clock is written only if the key-press section has left
    the entry field at [ENTER]. *)
Theorem failed_check_never_commits (env : Env) (s : State) :
  mode s = SET_MODE ->
  mode (loop_body "#" env s) = ERROR_MODE ->
  rtc_log (loop_body "#" env s) = rtc_log s /\
  entry_mode (loop_body "#" env s) = entry_mode s /\
  (forall k env',
      2000 <= Timer.read_ms (timer (loop_body "#" env s)) (now env') ->
      let s2 := loop_body k env' (loop_body "#" env s) in
      mode s2 = SET_MODE /\ entry_mode s2 = entry_mode s /\
      rtc_log s2 = rtc_log s) /\
  (forall k env' s',
      rtc_log (loop_body k env' s') <> rtc_log s' ->
      entry_mode (key_press k (now env') s') = ENTER).
Proof.
  intros H0 H1.
  destruct (failed_check_shape env s H0 H1) as (He & h' & m' & Es).
  assert (He' : entry_mode (loop_body "#" env s) <> ENTER)
    by (rewrite Es; simpl; unfold ENTER; lia).
  assert (Hu : update_LCD (loop_body "#" env s) = false)
    by (rewrite Es; reflexivity).
  split; [rewrite Es; reflexivity|].
  split; [rewrite Es; reflexivity|].
  split.
  - intros k env' Hd. cbv zeta.
    rewrite (error_recover k env' _ H1 He' Hu Hd). simpl.
    rewrite Es; simpl. auto.
  - intros k env' s' Hneq. rewrite loop_body_rtc_log in Hneq.
    destruct (Z.eqb_spec (entry_mode (key_press k (now env') s')) ENTER);
      [assumption | now elim Hneq].
Qed.

(** The theorem after [* 1 3 #] typed on top of an earlier commit. *)
Lemma failed_check_never_commits_witness :
  let s := run_keys
             (keys_at 0 [ "*"; "0"; "1"; "#"; "3"; "0"; "#"; "P"; "M"; "#";
                          "*"; "1"; "3" ]%char)
             (init 0) in
  mode s = SET_MODE /\
  mode (loop_body "#" (env_at 0) s) = ERROR_MODE /\
  rtc_log s = [(13, 30, 0)] /\
  rtc_log (loop_body "#" (env_at 0) s) = rtc_log s.
Proof.
  cbv zeta.
  split; [vm_compute; reflexivity|].
  split; [vm_compute; reflexivity|].
  split; [vm_compute; reflexivity|].
  destruct (failed_check_never_commits (env_at 0)
              (run_keys
                 (keys_at 0 [ "*"; "0"; "1"; "#"; "3"; "0"; "#"; "P"; "M"; "#";
                              "*"; "1"; "3" ]%char)
                 (init 0))
              ltac:(vm_compute; reflexivity) ltac:(vm_compute; reflexivity))
    as (H & _).
  exact H.
Defined.

(** ** What the checks let through *)

(** C9: the Minute check is the single comparison of the decoded value
    with 59: the pass ends in error mode exactly when the value exceeds
    59, and otherwise the value is stored as the minute and the entry
    field moves on to AmPm.  Slots ['2'], ['A'] decode to 37. *)
Theorem minute_check_upper_bound_only (env : Env) (s : State) :
  mode s = SET_MODE -> entry_mode s = MIN ->
  let v := entry_value (current_entry s) in
  let s' := loop_body "#" env s in
  (mode s' = ERROR_MODE <-> 59 < v) /\
  (v <= 59 -> min s' = v /\ entry_mode s' = AM_PM /\ mode s' = SET_MODE) /\
  entry_value (mkEntry "2" "A") = 37.
Proof.
  intros Hm He. cbv zeta.
  destruct (hash_min env s Hm He) as (Hv & Hbad & Hgood).
  split; [|split; [|reflexivity]].
  - split; [|now intros H; apply Hbad].
    intros H. destruct (Z.lt_ge_cases 59 (entry_value (current_entry s)))
      as [Hlt | Hge]; [assumption|].
    destruct (Hgood ltac:(lia)) as [Hs _]. rewrite Hs in H. discriminate H.
  - intros H. destruct (Hgood H) as [H1 H2]. auto.
Qed.

(** The theorem after [* 0 1 # 2 A]: the ['#'] that follows stores
    minute 37 and moves on to AmPm. *)
Lemma minute_check_upper_bound_only_witness :
  let s := run_keys (keys_at 0 [ "*"; "0"; "1"; "#"; "2"; "A" ]%char)
                    (init 0) in
  let s' := loop_body "#" (env_at 0) s in
  current_entry s = mkEntry "2" "A" /\
  min s' = 37 /\ entry_mode s' = AM_PM /\ mode s' = SET_MODE.
Proof.
  cbv zeta. split; [vm_compute; reflexivity|].
  destruct (minute_check_upper_bound_only (env_at 0)
              (run_keys (keys_at 0 [ "*"; "0"; "1"; "#"; "2"; "A" ]%char)
                        (init 0))
              ltac:(vm_compute; reflexivity) ltac:(vm_compute; reflexivity))
    as (_ & H & _).
  destruct (H ltac:(vm_compute; discriminate)) as (H1 & H2 & H3).
  split; [rewrite H1; vm_compute; reflexivity|]. split; assumption.
Defined.

(** With a blank in slot 1, the decoded value exceeds 59 unless slot 0
    holds ['0'] or ['1']. *)
Lemma blank_units_value (c0 : ascii) :
  slot_ok c0 ->
  (59 < entry_value (mkEntry c0 "_") <->
   ~ (c0 = "0"%char \/ c0 = "1"%char)).
Proof.
  unfold slot_ok, slot_chars. simpl. intros H.
  repeat (destruct H as [<- | H];
          [first
             [ now (split; [intros _ [E | E]; discriminate E
                           | intros _; vm_compute; reflexivity])
             | (split; [intros E; vm_compute in E; discriminate E
                       | intros E; elim E; auto]) ] |]).
  destruct H.
Qed.

(** C10, as the code has it: at a reachable state in Set mode with a
    blank in either slot, ['#'] always ends in error mode on the Hour and
    AmPm fields; on the Minute field it does so unless slot 1 is the
    blank and slot 0 holds ['0'] or ['1'], in which case the value decodes
    as 47 or 57 and is accepted. *)
Theorem blank_entry_is_rejected
        (ins : list (Keypad.Pins * Env)) (t0 : Z) (env : Env) :
  let s := st (main_run ins (sys_init t0)) in
  mode s = SET_MODE ->
  slot0 (current_entry s) = "_"%char \/ slot1 (current_entry s) = "_"%char ->
  let s' := loop_body "#" env s in
  (entry_mode s = HOUR \/ entry_mode s = MIN \/ entry_mode s = AM_PM) /\
  (entry_mode s = HOUR \/ entry_mode s = AM_PM -> mode s' = ERROR_MODE) /\
  (entry_mode s = MIN ->
   (mode s' = ERROR_MODE <->
    ~ (slot1 (current_entry s) = "_"%char /\
       (slot0 (current_entry s) = "0"%char \/
        slot0 (current_entry s) = "1"%char)))).
Proof.
  cbv zeta.
  destruct (main_run_ok ins (sys_init t0) (init_ok t0))
    as [(Hok & _ & _ & Hem & _) Hne].
  set (s := st (main_run ins (sys_init t0))) in *. clearbody s.
  intros Hm Hblank.
  destruct Hok as [Hs0 Hs1].
  pose proof (slot_ok_code _ Hs0) as Hc0.
  pose proof (slot_ok_code _ Hs1) as Hc1.
  assert (Hv : entry_value (current_entry s)
               = (code (slot0 (current_entry s)) - 48) * 10
                 + (code (slot1 (current_entry s)) - 48)) by reflexivity.
  assert (Hbig : slot0 (current_entry s) = "_"%char ->
                 470 <= entry_value (current_entry s)).
  { intros E. rewrite Hv, E. change (code "_") with 95. lia. }
  assert (Hmid : slot1 (current_entry s) = "_"%char ->
                 47 <= entry_value (current_entry s)).
  { intros E. rewrite Hv, E. change (code "_") with 95. lia. }
  split; [unfold ENTER, HOUR, MIN, AM_PM in *; lia|].
  split.
  - intros [He | He].
    + destruct (hash_hour env s Hm He) as (_ & Hbad & _).
      apply Hbad. destruct Hblank as [E | E]; [apply Hbig in E | apply Hmid in E]; lia.
    + apply hash_am_pm_bad; auto.
      destruct Hblank as [E | E]; [left | right]; rewrite E;
        [split|]; discriminate.
  - intros He.
    destruct (hash_min env s Hm He) as (_ & Hbad & Hgood).
    assert (Herr : mode (loop_body "#" env s) = ERROR_MODE
                   <-> 59 < entry_value (current_entry s)).
    { split; [|now intros H; apply Hbad].
      intros H. destruct (Z.lt_ge_cases 59 (entry_value (current_entry s)))
        as [Hlt | Hge]; [assumption|].
      destruct (Hgood ltac:(lia)) as [Hs _]. rewrite Hs in H. discriminate H. }
    rewrite Herr.
    destruct Hblank as [E | E].
    + split; [|intros _; apply Hbig in E; lia].
      intros _ [_ [E' | E']]; rewrite E in E'; discriminate E'.
    + pose proof (blank_units_value _ Hs0) as Hb.
      assert (Ee : current_entry s = mkEntry (slot0 (current_entry s)) "_")
        by (destruct (current_entry s) as [a b]; simpl in *; now subst b).
      rewrite <- Ee in Hb. rewrite Hb. tauto.
Qed.


(** The theorem right after [*]: Hour field, both slots blank. *)
Lemma blank_entry_is_rejected_witness :
  let s := st (main_run (typed [(3,0); (3,0)] 0) (sys_init 0)) in
  mode s = SET_MODE /\
  current_entry s = blank_entry /\
  entry_mode s = HOUR /\
  mode (loop_body "#" (env_at 3000000) s) = ERROR_MODE.
Proof.
  cbv zeta.
  split; [vm_compute; reflexivity|].
  split; [vm_compute; reflexivity|].
  split; [vm_compute; reflexivity|].
  destruct (blank_entry_is_rejected (typed [(3,0); (3,0)] 0) 0 (env_at 3000000)
              ltac:(vm_compute; reflexivity)
              ltac:(left; vm_compute; reflexivity))
    as (_ & H & _).
  apply H. left. vm_compute; reflexivity.
Defined.

(** C10, as written, fails on the Minute field: after [* 0 1 # 0] the
    buffer holds ['0'] and a blank, and ['#'] stores minute 47 and moves
    on to AmPm without entering error mode. *)
Lemma blank_minute_is_accepted :
  let s := st (main_run (typed [(3,0); (3,0); (3,1); (0,0); (3,2); (3,1)] 0)
                        (sys_init 0)) in
  let s' := loop_body "#" (env_at 7000000) s in
  mode s = SET_MODE /\ entry_mode s = MIN /\
  current_entry s = mkEntry "0" "_" /\
  mode s' <> ERROR_MODE /\
  mode s' = SET_MODE /\ entry_mode s' = AM_PM /\ min s' = 47.
Proof.
  cbv zeta. repeat split; try (vm_compute; reflexivity).
  vm_compute. discriminate.
Qed.


(** ** What the modes imply *)

Ltac solve_tidy :=
  unfold tidy; simpl; unfold_consts;
  repeat split; intros; try lia; try discriminate; try congruence; eauto.

Lemma loop_body_tidy (k : ascii) (env : Env) (s : State) :
  tidy s -> tidy (loop_body k env s).
Proof.
  intros (Hm & He & Hn & Herr).
  assert (Hcases : mode s = NORMAL_MODE \/ mode s = SET_MODE
                   \/ mode s = ERROR_MODE)
    by (unfold NORMAL_MODE, SET_MODE, ERROR_MODE; lia).
  destruct Hcases as [H0 | [H1 | H2]].
  - destruct (Hn H0) as [En Ec].
    destruct s as [m e i c h mi u tm rl ll]; simpl in *. subst m e c.
    unfold loop_body, key_press; simpl.
    destruct (chr_eqb k "x"); simpl.
    { finish_pass. destruct (Timer.read_ms tm (now env) >=? 1000); solve_tidy. }
    destruct (chr_eqb k "*"); simpl.
    { eval_state. finish_pass. solve_tidy. }
    destruct (chr_eqb k "D"); simpl.
    { eval_state. finish_pass.
      destruct (Timer.read_ms tm (now env) >=? 1000); solve_tidy. }
    finish_pass. destruct (Timer.read_ms tm (now env) >=? 1000); solve_tidy.
  - destruct s as [m e i c h mi u tm rl ll]; simpl in *. subst m.
    assert (He3 : (e =? ENTER) = false) by (apply Z.eqb_neq; exact He).
    unfold loop_body, key_press; simpl.
    destruct (chr_eqb k "x"); simpl.
    { unfold time_update; eval_state. rewrite He3.
      unfold screen_update, prompt_frame; eval_state; simpl.
      destruct u; solve_tidy. }
    destruct (chr_eqb k "*"); simpl.
    { eval_state. finish_pass. solve_tidy. }
    destruct (chr_eqb k "D"); simpl.
    { eval_state. finish_pass.
      destruct (Timer.read_ms tm (now env) >=? 1000); solve_tidy. }
    destruct (chr_eqb k "#"); simpl.
    2:{ eval_state. unfold time_update; eval_state. rewrite He3.
        unfold screen_update, prompt_frame; eval_state; simpl. solve_tidy. }
    unfold check_entry; simpl.
    destruct (Z.eqb_spec e HOUR) as [-> | N0].
    { unfold check_hour; eval_state.
      destruct ((entry_value c <? 1) || (entry_value c >? 12));
        finish_pass; solve_tidy. }
    destruct (Z.eqb_spec e MIN) as [-> | N1].
    { unfold check_min; eval_state.
      destruct (entry_value c >? 59); finish_pass; solve_tidy. }
    destruct (Z.eqb_spec e AM_PM) as [-> | N2].
    { unfold check_am_pm; eval_state.
      destruct (negb (chr_eqb (slot0 c) "A") && negb (chr_eqb (slot0 c) "P")
                || negb (chr_eqb (slot1 c) "M")).
      - finish_pass. solve_tidy.
      - destruct (chr_eqb (slot0 c) "P" && negb (h =? 12));
          finish_pass;
          destruct (Timer.read_ms tm (now env) >=? 1000); solve_tidy. }
    eval_state. unfold time_update; eval_state. rewrite He3.
    unfold screen_update, prompt_frame; eval_state; simpl. solve_tidy.
  - destruct (Herr H2) as (Ec & Eu & rest & El).
    unfold loop_body.
    rewrite key_press_error, time_update_idle by assumption.
    destruct s as [m e i c h mi u tm rl ll]; simpl in *. subst m c u ll.
    unfold screen_update; eval_state; simpl.
    destruct (Timer.read_ms tm (now env) >=? 2000); solve_tidy.
Qed.

Lemma init_tidy (t0 : Z) : tidy (init t0).
Proof. unfold init. solve_tidy. Qed.

Lemma main_run_tidy (ins : list (Keypad.Pins * Env)) :
  forall y, tidy (st y) -> tidy (st (main_run ins y)).
Proof.
  induction ins as [| [pins env] rest IH]; intros y Hy; simpl; auto.
  apply IH. unfold main_iter.
  destruct (Keypad.keypadScan pins (now env) (scan y)) as [k sc]; simpl.
  now apply loop_body_tidy.
Qed.

(** X7: at every reachable state the cursor is 0 or 1, the mode is one of the
    three modes, the entry field is Hour, Minute or AmPm, and both buffer
    slots hold the blank or a key that can be typed into them: every
    write to [current_entry] is within the array. *)
Theorem reachable_state_bounds
        (ins : list (Keypad.Pins * Env)) (t0 : Z) :
  let s := st (main_run ins (sys_init t0)) in
  0 <= index s <= 1 /\
  0 <= mode s <= 2 /\
  0 <= entry_mode s <= 2 /\
  entry_ok (current_entry s).
Proof.
  cbv zeta.
  destruct (main_run_ok ins (sys_init t0) (init_ok t0))
    as [(Hok & Hi & Hm & Hem & _) Hne].
  unfold ENTER in Hne. repeat split; try lia; apply Hok.
Qed.

(** X8: at every reachable state in normal mode the entry field is Hour and
    the buffer is blank: nothing of an abandoned or finished entry is
    left behind. *)
Theorem normal_mode_has_no_pending_entry
        (ins : list (Keypad.Pins * Env)) (t0 : Z) :
  let s := st (main_run ins (sys_init t0)) in
  mode s = NORMAL_MODE ->
  entry_mode s = HOUR /\ current_entry s = blank_entry.
Proof.
  cbv zeta. intros H.
  destruct (main_run_tidy ins (sys_init t0) (init_tidy t0))
    as (_ & _ & Hn & _).
  now apply Hn.
Qed.

Lemma normal_mode_has_no_pending_entry_witness :
  let s := st (main_run (typed [(3,0); (3,0); (0,0); (3,3)] 0) (sys_init 0)) in
  mode s = NORMAL_MODE /\ entry_mode s = HOUR /\ current_entry s = blank_entry.
Proof.
  cbv zeta. split; [vm_compute; reflexivity|].
  apply (normal_mode_has_no_pending_entry
           (typed [(3,0); (3,0); (0,0); (3,3)] 0) 0).
  vm_compute; reflexivity.
Defined.

(** X9: at every reachable state in error mode the newest frame on the
    display is the error banner, the buffer is blank and no redraw is
    pending: the banner stays up for the whole dwell. *)
Theorem error_mode_shows_banner
        (ins : list (Keypad.Pins * Env)) (t0 : Z) :
  let s := st (main_run ins (sys_init t0)) in
  mode s = ERROR_MODE ->
  (exists rest, lcd_log s = ErrorBanner :: rest) /\
  current_entry s = blank_entry /\
  update_LCD s = false.
Proof.
  cbv zeta. intros H.
  destruct (main_run_tidy ins (sys_init t0) (init_tidy t0))
    as (_ & _ & _ & He).
  destruct (He H) as (Hc & Hu & Hl). auto.
Qed.

Lemma error_mode_shows_banner_witness :
  let s := st (main_run (typed [(3,0); (3,0); (0,0); (0,2); (3,2)] 0)
                        (sys_init 0)) in
  mode s = ERROR_MODE /\ current_entry s = blank_entry.
Proof.
  cbv zeta. split; [vm_compute; reflexivity|].
  destruct (error_mode_shows_banner
              (typed [(3,0); (3,0); (0,0); (0,2); (3,2)] 0) 0
              ltac:(vm_compute; reflexivity))
    as (_ & H & _).
  exact H.
Defined.


(** ** The keys, one pass at a time *)

Lemma entry_key_tests (k : ascii) :
  entry_key k ->
  chr_eqb k "x" = false /\ chr_eqb k "*" = false /\
  chr_eqb k "D" = false /\ chr_eqb k "#" = false /\ slot_ok k.
Proof.
  unfold entry_key, entry_keys. simpl. intros H.
  repeat (destruct H as [<- | H]; [vm_compute; tauto|]).
  destruct H.
Qed.

(** X10: ['*'] in normal or Set mode starts the entry over: Set mode, Hour
    field, cursor 0, blank buffer, and the Hour prompt with two blanks is
    drawn in the same pass.  The candidate time and the clock are not
    touched. *)
Theorem star_restarts_entry (env : Env) (s : State) :
  mode s <> ERROR_MODE ->
  let s' := loop_body "*" env s in
  mode s' = SET_MODE /\ entry_mode s' = HOUR /\ index s' = 0 /\
  current_entry s' = blank_entry /\
  hr s' = hr s /\ min s' = min s /\ rtc_log s' = rtc_log s /\
  lcd_log s' = HourPrompt "_" "_" :: lcd_log s /\
  update_LCD s' = false.
Proof.
  destruct s as [m e i c h mi u tm rl ll]; simpl. intros Hm.
  apply Z.eqb_neq in Hm.
  unfold loop_body, key_press; simpl. rewrite Hm; simpl.
  eval_state. finish_pass. repeat split; reflexivity.
Qed.

Lemma star_restarts_entry_witness :
  let s := run_keys (keys_at 0 [ "*"; "0"; "1"; "#"; "4" ]%char) (init 0) in
  entry_mode s = MIN /\
  entry_mode (loop_body "*" (env_at 0) s) = HOUR /\
  current_entry (loop_body "*" (env_at 0) s) = blank_entry.
Proof.
  cbv zeta. split; [vm_compute; reflexivity|].
  destruct (star_restarts_entry (env_at 0)
              (run_keys (keys_at 0 [ "*"; "0"; "1"; "#"; "4" ]%char) (init 0))
              ltac:(vm_compute; discriminate))
    as (_ & H1 & _ & H2 & _).
  split; assumption.
Defined.

(** X11: ['D'] in normal or Set mode abandons the entry: normal mode, Hour
    field, blank buffer, and nothing is written to the clock, whatever
    field and buffer were in progress.  The cursor is left where it
    was. *)
Theorem D_abandons_entry (env : Env) (s : State) :
  mode s <> ERROR_MODE ->
  let s' := loop_body "D" env s in
  mode s' = NORMAL_MODE /\ entry_mode s' = HOUR /\
  current_entry s' = blank_entry /\
  rtc_log s' = rtc_log s /\ index s' = index s /\
  hr s' = hr s /\ min s' = min s.
Proof.
  destruct s as [m e i c h mi u tm rl ll]; simpl. intros Hm.
  apply Z.eqb_neq in Hm.
  unfold loop_body, key_press; simpl. rewrite Hm; simpl.
  eval_state. finish_pass.
  destruct (Timer.read_ms tm (now env) >=? 1000); simpl;
    repeat split; reflexivity.
Qed.

Lemma D_abandons_entry_witness :
  let s := run_keys
             (keys_at 0 [ "*"; "0"; "1"; "#"; "3"; "0"; "#"; "P"; "M" ]%char)
             (init 0) in
  entry_mode s = AM_PM /\
  mode (loop_body "D" (env_at 0) s) = NORMAL_MODE /\
  rtc_log (loop_body "D" (env_at 0) s) = rtc_log s.
Proof.
  cbv zeta. split; [vm_compute; reflexivity|].
  destruct (D_abandons_entry (env_at 0)
              (run_keys
                 (keys_at 0 [ "*"; "0"; "1"; "#"; "3"; "0"; "#"; "P"; "M" ]%char)
                 (init 0))
              ltac:(vm_compute; discriminate))
    as (H1 & _ & _ & H2 & _).
  split; assumption.
Defined.

(** X12: a digit or letter key in Set mode is stored at the cursor, the cursor
    moves to the other slot, and the prompt of the current field is drawn
    with the new buffer in the same pass; mode, field, candidate time and
    clock stay as they are. *)
Theorem typed_key_fills_slot (k : ascii) (env : Env) (s : State) :
  mode s = SET_MODE -> entry_mode s <> ENTER -> entry_key k ->
  let s' := loop_body k env s in
  current_entry s' = entry_write (current_entry s) (index s) k /\
  index s' = (if index s =? 0 then 1 else 0) /\
  mode s' = SET_MODE /\ entry_mode s' = entry_mode s /\
  hr s' = hr s /\ min s' = min s /\ rtc_log s' = rtc_log s /\
  lcd_log s'
  = prompt_frame
      (set_current_entry (entry_write (current_entry s) (index s) k) s)
      :: lcd_log s /\
  update_LCD s' = false.
Proof.
  destruct s as [m e i c h mi u tm rl ll]; simpl. intros -> He Hk.
  destruct (entry_key_tests k Hk) as (Ex & Es & Ed & Eh & _).
  apply Z.eqb_neq in He.
  unfold loop_body, key_press; simpl. rewrite Ex, Es, Ed, Eh; simpl.
  eval_state. unfold time_update; eval_state. rewrite He.
  unfold screen_update, prompt_frame; eval_state; simpl.
  repeat split; reflexivity.
Qed.

Lemma typed_key_fills_slot_witness :
  let s := run_keys (keys_at 0 [ "*" ]%char) (init 0) in
  current_entry (loop_body "7" (env_at 0) s) = mkEntry "7" "_" /\
  lcd_log (loop_body "7" (env_at 0) s) = HourPrompt "7" "_" :: lcd_log s.
Proof.
  cbv zeta.
  destruct (typed_key_fills_slot "7" (env_at 0)
              (run_keys (keys_at 0 [ "*" ]%char) (init 0))
              ltac:(vm_compute; reflexivity)
              ltac:(vm_compute; discriminate)
              ltac:(vm_compute; tauto))
    as (H1 & _ & _ & _ & _ & _ & _ & H2 & _).
  split.
  - rewrite H1. vm_compute. reflexivity.
  - rewrite H2. vm_compute. reflexivity.
Defined.

(** The core of the state after each kind of pass, from the core before. *)

Lemma core_star (env : Env) (s : State) m e i c h mi rl :
  core s = (m, e, i, c, h, mi, rl) -> m <> ERROR_MODE ->
  core (loop_body "*" env s) = (SET_MODE, HOUR, 0, blank_entry, h, mi, rl).
Proof.
  destruct s as [m0 e0 i0 c0 h0 mi0 u tm rl0 ll]; unfold core at 1; simpl.
  intros [= -> -> -> -> -> -> ->] Hm. apply Z.eqb_neq in Hm.
  unfold loop_body, key_press; simpl. rewrite Hm; simpl.
  eval_state. finish_pass. reflexivity.
Qed.

Lemma core_typed (k : ascii) (env : Env) (s : State) e i c h mi rl :
  core s = (SET_MODE, e, i, c, h, mi, rl) -> e <> ENTER -> entry_key k ->
  core (loop_body k env s)
  = (SET_MODE, e, (if i =? 0 then 1 else 0), entry_write c i k, h, mi, rl).
Proof.
  destruct s as [m0 e0 i0 c0 h0 mi0 u tm rl0 ll]; unfold core at 1; simpl.
  intros [= -> -> -> -> -> -> ->] He Hk.
  destruct (entry_key_tests k Hk) as (Ex & Es & Ed & Eh & _).
  apply Z.eqb_neq in He.
  unfold loop_body, key_press; simpl. rewrite Ex, Es, Ed, Eh; simpl.
  eval_state. unfold time_update; eval_state. rewrite He.
  unfold screen_update, prompt_frame; eval_state; simpl. reflexivity.
Qed.

(** X13: a third key typed into a field overwrites the first: with the cursor
    at slot 0, typing [k1 k2 k3] leaves [k3] in slot 0, [k2] in slot 1 and
    the cursor at slot 1. *)
Theorem third_key_overwrites_first
        (k1 k2 k3 : ascii) (e1 e2 e3 : Env) (s : State) :
  mode s = SET_MODE -> entry_mode s <> ENTER -> index s = 0 ->
  entry_key k1 -> entry_key k2 -> entry_key k3 ->
  let s' := run_keys [(k1, e1); (k2, e2); (k3, e3)] s in
  current_entry s' = mkEntry k3 k2 /\ index s' = 1 /\
  mode s' = SET_MODE /\ entry_mode s' = entry_mode s.
Proof.
  intros Hm He Hi H1 H2 H3. cbv zeta. simpl run_keys.
  assert (C0 : core s = (SET_MODE, entry_mode s, 0, current_entry s,
                         hr s, min s, rtc_log s))
    by (unfold core; now rewrite Hm, Hi).
  pose proof (core_typed k1 e1 s _ _ _ _ _ _ C0 He H1) as C1.
  pose proof (core_typed k2 e2 _ _ _ _ _ _ _ C1 He H2) as C2.
  pose proof (core_typed k3 e3 _ _ _ _ _ _ _ C2 He H3) as C3.
  simpl in C3. unfold core in C3.
  set (s3 := loop_body k3 e3 _) in *. clearbody s3.
  injection C3 as Em Ee Ei Ec _ _ _.
  rewrite Em, Ee, Ei, Ec. unfold entry_write; simpl. auto.
Qed.

Lemma third_key_overwrites_first_witness :
  let s := run_keys (keys_at 0 [ "*" ]%char) (init 0) in
  current_entry (run_keys (keys_at 0 [ "1"; "2"; "0" ]%char) s)
  = mkEntry "0" "2".
Proof.
  cbv zeta.
  destruct (third_key_overwrites_first "1" "2" "0"
              (env_at 0) (env_at 0) (env_at 0)
              (run_keys (keys_at 0 [ "*" ]%char) (init 0))
              ltac:(vm_compute; reflexivity)
              ltac:(vm_compute; discriminate)
              ltac:(vm_compute; reflexivity)
              ltac:(vm_compute; tauto) ltac:(vm_compute; tauto)
              ltac:(vm_compute; tauto))
    as (H & _).
  exact H.
Defined.


(** ** What each field accepts *)

Lemma slot_ok_codes (c : ascii) :
  slot_ok c ->
  48 <= code c <= 57 \/ code c = 65 \/ code c = 77 \/ code c = 80
  \/ code c = 95.
Proof.
  unfold slot_ok, slot_chars. simpl. intros H.
  repeat (destruct H as [<- | H];
          [first [ now (left; vm_compute; split; discriminate)
                 | now (right; left; reflexivity)
                 | now (right; right; left; reflexivity)
                 | now (right; right; right; left; reflexivity)
                 | now (right; right; right; right; reflexivity) ] |]).
  destruct H.
Qed.

(** X14: on the Hour field ['#'] is accepted exactly when the decoded value is
    within 1..12, and at a reachable state that only happens when both
    slots hold digits: no letter and no blank gets through the Hour
    check.  An accepted hour is stored and the field moves on to
    Minute. *)
Theorem hour_accepts_only_digits
        (ins : list (Keypad.Pins * Env)) (t0 : Z) (env : Env) :
  let s := st (main_run ins (sys_init t0)) in
  mode s = SET_MODE -> entry_mode s = HOUR ->
  let v := entry_value (current_entry s) in
  let s' := loop_body "#" env s in
  (mode s' = SET_MODE <-> 1 <= v <= 12) /\
  (mode s' = SET_MODE ->
   is_digit (slot0 (current_entry s)) /\
   is_digit (slot1 (current_entry s)) /\
   entry_mode s' = MIN /\ hr s' = v).
Proof.
  cbv zeta.
  destruct (main_run_ok ins (sys_init t0) (init_ok t0))
    as [([Hs0 Hs1] & _) _].
  set (s := st (main_run ins (sys_init t0))) in *. clearbody s.
  intros Hm He.
  destruct (hash_hour env s Hm He) as (Hv & Hbad & Hgood).
  assert (Hiff : mode (loop_body "#" env s) = SET_MODE
                 <-> 1 <= entry_value (current_entry s) <= 12).
  { split; [|now intros H; apply Hgood].
    intros H.
    destruct (Z.lt_ge_cases (entry_value (current_entry s)) 1) as [Hlt | Hge].
    - destruct (Hbad (or_introl Hlt)) as [E _]. rewrite E in H. discriminate H.
    - destruct (Z.lt_ge_cases 12 (entry_value (current_entry s))) as [Hgt | Hle].
      + destruct (Hbad (or_intror Hgt)) as [E _]. rewrite E in H. discriminate H.
      + lia. }
  split; [exact Hiff|].
  intros H. apply Hiff in H.
  apply slot_ok_codes in Hs0, Hs1.
  assert (Hval : entry_value (current_entry s)
                 = (code (slot0 (current_entry s)) - 48) * 10
                   + (code (slot1 (current_entry s)) - 48)) by reflexivity.
  unfold is_digit.
  destruct (Hgood H) as [_ Hmin].
  repeat split; auto; lia.
Qed.

Lemma hour_accepts_only_digits_witness :
  let s := st (main_run (typed [(3,0); (3,0); (3,1); (2,2)] 0) (sys_init 0)) in
  mode (loop_body "#" (env_at 9000000) s) = SET_MODE /\
  is_digit (slot0 (current_entry s)) /\
  hr (loop_body "#" (env_at 9000000) s) = 9.
Proof.
  cbv zeta.
  destruct (hour_accepts_only_digits
              (typed [(3,0); (3,0); (3,1); (2,2)] 0) 0 (env_at 9000000)
              ltac:(vm_compute; reflexivity) ltac:(vm_compute; reflexivity))
    as ([_ Hacc] & Hrest).
  assert (Hm : mode (loop_body "#" (env_at 9000000)
                       (st (main_run (typed [(3,0); (3,0); (3,1); (2,2)] 0)
                                     (sys_init 0)))) = SET_MODE)
    by (apply Hacc; vm_compute; split; discriminate).
  destruct (Hrest Hm) as (Hd & _ & _ & Hh).
  split; [exact Hm|]. split; [exact Hd|].
  rewrite Hh. vm_compute. reflexivity.
Defined.

(** X15: on the AmPm field ['#'] commits exactly when the buffer reads
    ['A','M'] or ['P','M'].  The commit hands the hour, the minute and
    second 0 to the clock and returns to normal mode with the Hour field
    and a blank buffer.  For ['P'] the hour gets 12 added unless it is 12;
    for ['A'] an hour other than 12 is handed over as it is. *)
Theorem am_pm_commit (env : Env) (s : State) :
  mode s = SET_MODE -> entry_mode s = AM_PM ->
  let c0 := slot0 (current_entry s) in
  let c1 := slot1 (current_entry s) in
  let s' := loop_body "#" env s in
  (mode s' = NORMAL_MODE <->
   (c0 = "A"%char \/ c0 = "P"%char) /\ c1 = "M"%char) /\
  (mode s' = NORMAL_MODE ->
   entry_mode s' = HOUR /\ current_entry s' = blank_entry) /\
  (c0 = "P"%char -> c1 = "M"%char ->
   rtc_log s'
   = ((if hr s =? 12 then 12 else hr s + 12), min s, 0) :: rtc_log s) /\
  (c0 = "A"%char -> c1 = "M"%char -> hr s <> 12 ->
   rtc_log s' = (hr s, min s, 0) :: rtc_log s).
Proof.
  destruct s as [m e i [a b] h mi u tm rl ll]; simpl. intros -> ->.
  unfold loop_body, key_press; simpl. unfold check_entry; simpl.
  unfold check_am_pm; eval_state; simpl.
  destruct (chr_eqb a "A") eqn:Ea; simpl.
  - apply chr_eqb_eq in Ea. subst a. simpl.
    destruct (chr_eqb b "M") eqn:Eb; simpl.
    + apply chr_eqb_eq in Eb. subst b. finish_pass.
      destruct (Timer.read_ms tm (now env) >=? 1000); simpl;
        repeat split; auto; try discriminate.
    + apply chr_eqb_neq in Eb. finish_pass.
      repeat split; try discriminate; try tauto; try congruence.
  - apply chr_eqb_neq in Ea.
    destruct (chr_eqb a "P") eqn:Ep; simpl.
    + apply chr_eqb_eq in Ep. subst a.
      destruct (chr_eqb b "M") eqn:Eb; simpl.
      * apply chr_eqb_eq in Eb. subst b.
        destruct (Z.eqb_spec h 12) as [-> | N12]; simpl; finish_pass;
          destruct (Timer.read_ms tm (now env) >=? 1000); simpl;
          repeat split; auto; try discriminate.
      * apply chr_eqb_neq in Eb. finish_pass.
        repeat split; try discriminate; try tauto; try congruence.
    + apply chr_eqb_neq in Ep. finish_pass.
      repeat split; try discriminate; try tauto; try congruence.
Qed.

Lemma am_pm_commit_witness :
  let s := run_keys
             (keys_at 0 [ "*"; "0"; "5"; "#"; "4"; "5"; "#"; "P"; "M" ]%char)
             (init 0) in
  rtc_log (loop_body "#" (env_at 0) s) = [(17, 45, 0)].
Proof.
  cbv zeta.
  destruct (am_pm_commit (env_at 0)
              (run_keys
                 (keys_at 0 [ "*"; "0"; "5"; "#"; "4"; "5"; "#"; "P"; "M" ]%char)
                 (init 0))
              ltac:(vm_compute; reflexivity) ltac:(vm_compute; reflexivity))
    as (_ & _ & H & _).
  rewrite (H ltac:(vm_compute; reflexivity) ltac:(vm_compute; reflexivity)).
  vm_compute. reflexivity.
Defined.


Lemma core_hash_hour (env : Env) (s : State) i c h mi rl :
  core s = (SET_MODE, HOUR, i, c, h, mi, rl) ->
  1 <= entry_value c <= 12 ->
  core (loop_body "#" env s)
  = (SET_MODE, MIN, i, blank_entry, entry_value c, mi, rl).
Proof.
  destruct s as [m0 e0 i0 c0 h0 mi0 u tm rl0 ll]; unfold core at 1; simpl.
  intros [= -> -> -> -> -> -> ->] Hv.
  unfold loop_body, key_press; simpl. unfold check_entry; simpl.
  unfold check_hour; eval_state.
  destruct ((entry_value c <? 1) || (entry_value c >? 12)) eqn:E; [lia|].
  finish_pass. reflexivity.
Qed.

Lemma core_hash_min (env : Env) (s : State) i c h mi rl :
  core s = (SET_MODE, MIN, i, c, h, mi, rl) ->
  entry_value c <= 59 ->
  core (loop_body "#" env s)
  = (SET_MODE, AM_PM, i, blank_entry, h, entry_value c, rl).
Proof.
  destruct s as [m0 e0 i0 c0 h0 mi0 u tm rl0 ll]; unfold core at 1; simpl.
  intros [= -> -> -> -> -> -> ->] Hv.
  unfold loop_body, key_press; simpl. unfold check_entry; simpl.
  unfold check_min; eval_state.
  destruct (entry_value c >? 59) eqn:E; [lia|].
  finish_pass. reflexivity.
Qed.

Lemma core_hash_am_pm (env : Env) (s : State) i a h mi rl :
  core s = (SET_MODE, AM_PM, i, mkEntry a "M", h, mi, rl) ->
  a = "A"%char \/ a = "P"%char ->
  let h' := if chr_eqb a "P" && negb (h =? 12) then h + 12 else h in
  core (loop_body "#" env s)
  = (NORMAL_MODE, HOUR, i, blank_entry, h', mi, (h', mi, 0) :: rl).
Proof.
  destruct s as [m0 e0 i0 c0 h0 mi0 u tm rl0 ll]; unfold core at 1; simpl.
  intros [= -> -> -> -> -> -> ->] Ha.
  unfold loop_body, key_press; simpl. unfold check_entry; simpl.
  unfold check_am_pm; eval_state; simpl.
  destruct Ha as [-> | ->]; simpl.
  - finish_pass.
    destruct (Timer.read_ms tm (now env) >=? 1000); reflexivity.
  - destruct (h =? 12); simpl; finish_pass;
      destruct (Timer.read_ms tm (now env) >=? 1000); reflexivity.
Qed.

(** X16: setting the time, in general: from normal or Set mode, the keys
    [* k0 k1 # k2 k3 # a M #] with an hour value within 1..12, a minute
    value of at most 59 and [a] one of ['A'], ['P'] (12 AM apart) hand
    exactly one time to the clock, whatever the clock and sensors read
    at each pass: the minute as typed, second 0, and the hour as typed
    for ['A'] or for 12 PM, and the hour plus 12 for any other PM hour.
    The program ends in normal mode on the Hour field with a blank
    buffer. *)
Theorem set_time_round_trip
        (s : State) (k0 k1 k2 k3 a : ascii)
        (e1 e2 e3 e4 e5 e6 e7 e8 e9 e10 : Env) :
  mode s <> ERROR_MODE ->
  entry_key k0 -> entry_key k1 -> entry_key k2 -> entry_key k3 ->
  1 <= entry_value (mkEntry k0 k1) <= 12 ->
  entry_value (mkEntry k2 k3) <= 59 ->
  a = "A"%char \/ a = "P"%char ->
  ~ (a = "A"%char /\ entry_value (mkEntry k0 k1) = 12) ->
  let H := entry_value (mkEntry k0 k1) in
  let M := entry_value (mkEntry k2 k3) in
  let s' := run_keys
              [ ("*"%char, e1); (k0, e2); (k1, e3); ("#"%char, e4);
                (k2, e5); (k3, e6); ("#"%char, e7);
                (a, e8); ("M"%char, e9); ("#"%char, e10) ] s in
  rtc_log s'
  = ((if chr_eqb a "P" && negb (H =? 12) then H + 12 else H), M, 0)
      :: rtc_log s /\
  mode s' = NORMAL_MODE /\ entry_mode s' = HOUR /\
  current_entry s' = blank_entry.
Proof.
  intros Hm K0 K1 K2 K3 HH HM Ha _. cbv zeta. simpl run_keys.
  assert (Ka : entry_key a)
    by (destruct Ha as [-> | ->]; vm_compute; tauto).
  assert (KM : entry_key "M") by (vm_compute; tauto).
  assert (N0 : HOUR <> ENTER) by discriminate.
  assert (N1 : MIN <> ENTER) by discriminate.
  assert (N2 : AM_PM <> ENTER) by discriminate.
  pose proof (core_star e1 s _ _ _ _ _ _ _ eq_refl Hm) as C1.
  pose proof (core_typed k0 e2 _ _ _ _ _ _ _ C1 N0 K0) as C2.
  pose proof (core_typed k1 e3 _ _ _ _ _ _ _ C2 N0 K1) as C3.
  simpl in C3. unfold entry_write in C3; simpl in C3.
  pose proof (core_hash_hour e4 _ _ _ _ _ _ C3 HH) as C4.
  pose proof (core_typed k2 e5 _ _ _ _ _ _ _ C4 N1 K2) as C5.
  pose proof (core_typed k3 e6 _ _ _ _ _ _ _ C5 N1 K3) as C6.
  simpl in C6. unfold entry_write in C6; simpl in C6.
  pose proof (core_hash_min e7 _ _ _ _ _ _ C6 HM) as C7.
  pose proof (core_typed a e8 _ _ _ _ _ _ _ C7 N2 Ka) as C8.
  pose proof (core_typed "M" e9 _ _ _ _ _ _ _ C8 N2 KM) as C9.
  simpl in C9. unfold entry_write in C9; simpl in C9.
  pose proof (core_hash_am_pm e10 _ _ _ _ _ _ C9 Ha) as C10.
  cbv zeta in C10. unfold core in C10.
  set (s10 := loop_body "#" e10 _) in *. clearbody s10.
  injection C10 as Em Ee _ Ec _ _ Er.
  rewrite Em, Ee, Ec, Er. auto.
Qed.

Lemma set_time_round_trip_witness :
  rtc_log
    (run_keys
       (keys_at 0 [ "*"; "1"; "1"; "#"; "0"; "7"; "#"; "P"; "M"; "#" ]%char)
       (loop_body "*" (env_at 0) (init 0)))
  = [(23, 7, 0)].
Proof.
  destruct (set_time_round_trip (loop_body "*" (env_at 0) (init 0))
              "1" "1" "0" "7" "P"
              (env_at 0) (env_at 0) (env_at 0) (env_at 0) (env_at 0)
              (env_at 0) (env_at 0) (env_at 0) (env_at 0) (env_at 0)
              ltac:(vm_compute; discriminate)
              ltac:(vm_compute; tauto) ltac:(vm_compute; tauto)
              ltac:(vm_compute; tauto) ltac:(vm_compute; tauto)
              ltac:(vm_compute; split; discriminate)
              ltac:(vm_compute; discriminate)
              ltac:(right; reflexivity)
              ltac:(intros [E _]; discriminate E))
    as (H & _).
  exact H.
Defined.


(** ** Passes without an accepted key *)

Lemma key_press_x (t : Z) (s : State) : key_press "x" t s = s.
Proof. reflexivity. Qed.

Lemma idle_pass_core (env : Env) (s : State) :
  mode s <> ERROR_MODE -> entry_mode s <> ENTER ->
  core (loop_body "x" env s) = core s.
Proof.
  intros Hm He. unfold loop_body.
  rewrite key_press_x, time_update_idle by assumption.
  destruct (screen_update_keeps env s) as (E1 & E2 & E3 & E4 & E5 & E6).
  destruct (E6 Hm) as [E7 E8].
  unfold core. now rewrite E1, E2, E3, E4, E5, E7, E8.
Qed.

Lemma idle_run_core (ins : list (Keypad.Pins * Env)) :
  forall y,
    mode (st y) <> ERROR_MODE -> entry_mode (st y) <> ENTER ->
    Forall (fun pe => all_idle (fst pe)) ins ->
    core (st (main_run ins y)) = core (st y).
Proof.
  induction ins as [| [pins env] rest IH]; intros y Hm He Hall; simpl; auto.
  inversion Hall as [| ? ? Hidle Hrest]; subst. simpl in Hidle.
  unfold main_iter.
  assert (Ek : Keypad.keypadScan pins (now env) (scan y)
               = ("x"%char,
                  Keypad.mkScan (fst (Keypad.row_col (scan y)), -1) (-1, -1)
                                (Keypad.debounceTimer (scan y)))).
  { unfold Keypad.keypadScan.
    assert (Er : Keypad.row_loop pins (now env) 0 4
                   (Keypad.row_col (scan y)) (Keypad.debounceTimer (scan y))
                 = ((fst (Keypad.row_col (scan y)), -1), true,
                    Keypad.debounceTimer (scan y))).
    { cbn [Keypad.row_loop].
      rewrite !col_scan_idle by (apply Hidle; lia). reflexivity. }
    now rewrite Er. }
  rewrite Ek.
  pose proof (idle_pass_core env (st y) Hm He) as Hc.
  rewrite IH; simpl; auto.
  - unfold core in Hc. injection Hc as Em _ _ _ _ _ _. now rewrite Em.
  - unfold core in Hc. injection Hc as _ Ee _ _ _ _ _. now rewrite Ee.
Qed.

(** X17: with no key held, the program outside error mode keeps its mode,
    entry field, cursor, buffer, candidate time and clock log through any
    number of passes, whatever the timers read: only the display and the
    timers move. *)
Theorem idle_keypad_changes_nothing
        (ins0 ins : list (Keypad.Pins * Env)) (t0 : Z) :
  let y := main_run ins0 (sys_init t0) in
  mode (st y) <> ERROR_MODE ->
  Forall (fun pe => all_idle (fst pe)) ins ->
  core (st (main_run ins y)) = core (st y).
Proof.
  cbv zeta. intros Hm Hall.
  destruct (main_run_ok ins0 (sys_init t0) (init_ok t0)) as [_ Hne].
  now apply idle_run_core.
Qed.

Lemma no_press_idle : all_idle no_press.
Proof.
  intros r _. unfold Keypad.row_idle, no_press. repeat split; discriminate.
Qed.

Lemma idle_keypad_changes_nothing_witness :
  let y := main_run (typed [(3,0); (3,0); (0,1)] 0) (sys_init 0) in
  core (st (main_run [(no_press, env_at 60000000); (no_press, env_at 90000000)] y))
  = core (st y).
Proof.
  cbv zeta.
  apply (idle_keypad_changes_nothing
           (typed [(3,0); (3,0); (0,1)] 0)
           [(no_press, env_at 60000000); (no_press, env_at 90000000)] 0).
  - vm_compute; discriminate.
  - constructor; [exact no_press_idle|].
    constructor; [exact no_press_idle | constructor].
Defined.

(** X18: in normal mode every key but ['*'] is ignored: at a reachable state
    the pass is the same as with no key at all. *)
Theorem normal_mode_ignores_keys
        (ins : list (Keypad.Pins * Env)) (t0 : Z) (k : ascii) (env : Env) :
  let s := st (main_run ins (sys_init t0)) in
  mode s = NORMAL_MODE -> k <> "*"%char ->
  loop_body k env s = loop_body "x" env s.
Proof.
  cbv zeta.
  destruct (main_run_tidy ins (sys_init t0) (init_tidy t0))
    as (_ & _ & Hn & _).
  set (s := st (main_run ins (sys_init t0))) in *. clearbody s.
  intros Hm Hk. destruct (Hn Hm) as [He Hc].
  unfold loop_body. f_equal. f_equal.
  destruct s as [m e i c h mi u tm rl ll]; simpl in *. subst m e c.
  apply chr_eqb_neq in Hk.
  unfold key_press; simpl. rewrite Hk.
  destruct (chr_eqb k "x"); simpl; [reflexivity|].
  destruct (chr_eqb k "D"); reflexivity.
Qed.

Lemma normal_mode_ignores_keys_witness :
  loop_body "7" (env_at 0) (st (main_run [] (sys_init 0)))
  = loop_body "x" (env_at 0) (st (main_run [] (sys_init 0))).
Proof.
  apply (normal_mode_ignores_keys [] 0 "7" (env_at 0)).
  - reflexivity.
  - discriminate.
Defined.

(** ** The display *)

(** X19: the periodic render: a pass in normal mode with no key draws the
    clock line exactly when the timer reads 1000 ms or more, with the
    hour shown within 1..12 and congruent to the clock's hour modulo 12,
    and restarts the timer; below 1000 ms the pass changes nothing at
    all. *)
Theorem normal_mode_render (env : Env) (s : State) :
  mode s = NORMAL_MODE -> entry_mode s <> ENTER ->
  0 <= tm_hour env <= 23 ->
  let s' := loop_body "x" env s in
  (1000 <= Timer.read_ms (timer s) (now env) ->
   (exists sfx,
       lcd_log s'
       = ClockLine (display_hour (tm_hour env)) (tm_min env) (tm_sec env)
                   sfx (getTemp env (toggle env)) (unit_char (toggle env))
           :: lcd_log s) /\
   1 <= display_hour (tm_hour env) <= 12 /\
   (display_hour (tm_hour env) - tm_hour env) mod 12 = 0 /\
   Timer.read_ms (timer s') (now env) = 0) /\
  (Timer.read_ms (timer s) (now env) < 1000 -> s' = s).
Proof.
  intros Hm He Hh. cbv zeta. unfold loop_body.
  rewrite key_press_x, time_update_idle by assumption.
  destruct s as [m e i c h mi u tm rl ll]; simpl in *. subst m.
  unfold screen_update; eval_state; simpl.
  destruct (Z.geb_spec (Timer.read_ms tm (now env)) 1000) as [Hge | Hlt];
    simpl.
  - split; [|lia]. intros _.
    split; [eexists; reflexivity|].
    assert (Hd : display_hour (tm_hour env)
                 = if tm_hour env mod 12 =? 0 then 12 else tm_hour env mod 12).
    { unfold display_hour. now rewrite Z.rem_mod_nonneg by lia. }
    pose proof (Z.mod_pos_bound (tm_hour env) 12 ltac:(lia)) as Hb.
    split; [|split].
    + rewrite Hd. destruct (Z.eqb_spec (tm_hour env mod 12) 0); lia.
    + rewrite Hd.
      destruct (Z.eqb_spec (tm_hour env mod 12) 0) as [E | E].
      * rewrite <- Zminus_mod_idemp_r, E. reflexivity.
      * rewrite <- Zminus_mod_idemp_l, Z.mod_mod by lia.
        rewrite Zminus_mod_idemp_l, Z.sub_diag. reflexivity.
    + apply read_ms_reset.
  - split; [lia|]. intros _. reflexivity.
Qed.

Lemma normal_mode_render_witness :
  exists sfx,
    lcd_log (loop_body "x" (mkEnv 1000000 15 4 5 (fun _ => 21) true) (init 0))
    = [ClockLine 3 4 5 sfx 21 "F"].
Proof.
  destruct (normal_mode_render (mkEnv 1000000 15 4 5 (fun _ => 21) true)
              (init 0) eq_refl ltac:(vm_compute; discriminate)
              ltac:(vm_compute; split; discriminate))
    as [H _].
  destruct (H ltac:(vm_compute; discriminate)) as ((sfx & E) & _).
  exists sfx. exact E.
Defined.

Lemma key_press_lcd_log (k : ascii) (t : Z) (s : State) :
  lcd_log (key_press k t s) = lcd_log s.
Proof.
  destruct s as [m e i c h mi u tm rl ll].
  unfold key_press, check_entry, check_hour, check_min, check_am_pm;
    eval_state.
  split_ifs; reflexivity.
Qed.

Lemma time_update_lcd_log (s : State) : lcd_log (time_update s) = lcd_log s.
Proof.
  destruct s as [m e i c h mi u tm rl ll].
  unfold time_update; eval_state. destruct (e =? ENTER); reflexivity.
Qed.

Lemma screen_update_lcd_log (env : Env) (s : State) :
  lcd_log (screen_update env s) = lcd_log s \/
  exists f, lcd_log (screen_update env s) = f :: lcd_log s.
Proof.
  destruct s as [m e i c h mi u tm rl ll].
  unfold screen_update; eval_state.
  destruct ((m =? NORMAL_MODE) && (Timer.read_ms tm (now env) >=? 1000));
    [right; eexists; reflexivity|].
  destruct ((m >=? SET_MODE) && u); [right; eexists; reflexivity|].
  destruct ((m =? ERROR_MODE) && (Timer.read_ms tm (now env) >=? 2000));
    left; reflexivity.
Qed.

Lemma loop_body_logs (k : ascii) (env : Env) (s : State) :
  (lcd_log (loop_body k env s) = lcd_log s \/
   exists f, lcd_log (loop_body k env s) = f :: lcd_log s) /\
  (rtc_log (loop_body k env s) = rtc_log s \/
   exists c, rtc_log (loop_body k env s) = c :: rtc_log s).
Proof.
  split.
  - unfold loop_body.
    pose proof (screen_update_lcd_log env
                  (time_update (key_press k (now env) s))) as H.
    rewrite time_update_lcd_log, key_press_lcd_log in H. exact H.
  - rewrite loop_body_rtc_log.
    destruct (entry_mode (key_press k (now env) s) =? ENTER);
      [right; eexists; reflexivity | left; reflexivity].
Qed.

(** X20: over any run of the program, frames and committed times are only
    ever added at the front of their logs, at most one frame and one time
    per pass: nothing drawn or committed earlier is lost. *)
Theorem logs_only_grow (ins : list (Keypad.Pins * Env)) :
  forall y,
  exists fs cs,
    lcd_log (st (main_run ins y)) = fs ++ lcd_log (st y) /\
    rtc_log (st (main_run ins y)) = cs ++ rtc_log (st y) /\
    (length fs <= length ins)%nat /\ (length cs <= length ins)%nat.
Proof.
  induction ins as [| [pins env] rest IH]; intros y; simpl.
  - exists [], []. simpl. auto.
  - destruct (IH (main_iter pins env y)) as (fs & cs & Hf & Hc & Lf & Lc).
    unfold main_iter in *.
    destruct (Keypad.keypadScan pins (now env) (scan y)) as [k sc];
      simpl in *.
    destruct (loop_body_logs k env (st y)) as [[Ef | [f Ef]] [Ec | [c Ec]]];
      rewrite Ef in Hf; rewrite Ec in Hc.
    + exists fs, cs. repeat split; auto.
    + exists fs, (cs ++ [c]). rewrite <- app_assoc. simpl.
      rewrite length_app. simpl. repeat split; auto; lia.
    + exists (fs ++ [f]), cs. rewrite <- app_assoc. simpl.
      rewrite length_app. simpl. repeat split; auto; lia.
    + exists (fs ++ [f]), (cs ++ [c]). rewrite <- !app_assoc. simpl.
      rewrite !length_app. simpl. repeat split; auto; lia.
Qed.


(** X21: a ['#'] that fails validation draws the error banner in that same
    pass, blanks the buffer and clears the redraw flag; the cursor stays
    where it was until the recovery resets it. *)
Theorem failed_check_draws_banner (env : Env) (s : State) :
  mode s = SET_MODE ->
  mode (loop_body "#" env s) = ERROR_MODE ->
  lcd_log (loop_body "#" env s) = ErrorBanner :: lcd_log s /\
  current_entry (loop_body "#" env s) = blank_entry /\
  index (loop_body "#" env s) = index s /\
  update_LCD (loop_body "#" env s) = false.
Proof.
  intros H0 H1.
  destruct (failed_check_shape env s H0 H1) as (_ & h' & m' & Es).
  rewrite Es. simpl. auto.
Qed.

Lemma failed_check_draws_banner_witness :
  let s := run_keys (keys_at 0 [ "*"; "0"; "1"; "#"; "6"; "1" ]%char) (init 0) in
  mode s = SET_MODE /\
  lcd_log (loop_body "#" (env_at 0) s) = ErrorBanner :: lcd_log s.
Proof.
  cbv zeta. split; [vm_compute; reflexivity|].
  destruct (failed_check_draws_banner (env_at 0)
              (run_keys (keys_at 0 [ "*"; "0"; "1"; "#"; "6"; "1" ]%char) (init 0))
              ltac:(vm_compute; reflexivity) ltac:(vm_compute; reflexivity))
    as (H & _).
  exact H.
Defined.

(** X22: after the dwell the prompt comes back: from a reachable error state,
    the pass at which the timer has reached 2000 ms followed by one pass
    without a key draws the prompt of the field that failed, with two
    blanks, as the only new frame. *)
Theorem recovery_redraws_prompt
        (ins : list (Keypad.Pins * Env)) (t0 : Z)
        (k : ascii) (env1 env2 : Env) :
  let s := st (main_run ins (sys_init t0)) in
  mode s = ERROR_MODE ->
  2000 <= Timer.read_ms (timer s) (now env1) ->
  let s' := loop_body "x" env2 (loop_body k env1 s) in
  mode s' = SET_MODE /\ entry_mode s' = entry_mode s /\
  (entry_mode s = HOUR -> lcd_log s' = HourPrompt "_" "_" :: lcd_log s) /\
  (entry_mode s = MIN -> lcd_log s' = MinPrompt "_" "_" :: lcd_log s) /\
  (entry_mode s = AM_PM -> lcd_log s' = AmPmPrompt "_" "_" :: lcd_log s).
Proof.
  cbv zeta.
  destruct (main_run_tidy ins (sys_init t0) (init_tidy t0))
    as (_ & Hne & _ & Herr).
  set (s := st (main_run ins (sys_init t0))) in *. clearbody s.
  intros Hm Ht. destruct (Herr Hm) as (Hc & Hu & _).
  rewrite (error_recover k env1 s Hm Hne Hu Ht).
  destruct s as [m e i c h mi u tm rl ll]; simpl in *. subst m c u.
  apply Z.eqb_neq in Hne.
  unfold loop_body. rewrite key_press_x.
  unfold time_update; eval_state. rewrite Hne.
  unfold screen_update, prompt_frame; eval_state; simpl.
  split; [reflexivity|]. split; [reflexivity|].
  repeat split; intros ->; reflexivity.
Qed.

Lemma recovery_redraws_prompt_witness :
  let s := st (main_run (typed [(3,0); (3,0); (0,0); (0,2); (3,2)] 0)
                        (sys_init 0)) in
  lcd_log (loop_body "x" (env_at 8000000) (loop_body "x" (env_at 7000000) s))
  = HourPrompt "_" "_" :: lcd_log s.
Proof.
  cbv zeta.
  destruct (recovery_redraws_prompt
              (typed [(3,0); (3,0); (0,0); (0,2); (3,2)] 0) 0 "x"
              (env_at 7000000) (env_at 8000000)
              ltac:(vm_compute; reflexivity)
              ltac:(vm_compute; discriminate))
    as (_ & _ & H & _).
  apply H. vm_compute; reflexivity.
Defined.

End LoopBody.

(** ** More on the scanner *)

Section ScannerCalls.

Import Keypad.

Lemma col_scan_cases (cols : Cols) :
  (col_scan cols = -1 /\
   cols 0 <> 0 /\ cols 1 <> 0 /\ cols 2 <> 0 /\ cols 3 <> 0) \/
  (0 <= col_scan cols < 4 /\ cols (col_scan cols) = 0 /\
   forall c', 0 <= c' < col_scan cols -> cols c' <> 0).
Proof.
  unfold col_scan; simpl.
  destruct (Z.eqb_spec (cols 0) 0) as [E0 | N0].
  { right. split; [lia|]. split; [assumption|]. intros c' Hc. lia. }
  destruct (Z.eqb_spec (cols 1) 0) as [E1 | N1].
  { right. split; [lia|]. split; [assumption|]. intros c' Hc.
    replace c' with 0 by lia. exact N0. }
  destruct (Z.eqb_spec (cols 2) 0) as [E2 | N2].
  { right. split; [lia|]. split; [assumption|]. intros c' Hc.
    assert (c' = 0 \/ c' = 1) as [-> | ->] by lia; assumption. }
  destruct (Z.eqb_spec (cols 3) 0) as [E3 | N3].
  { right. split; [lia|]. split; [assumption|]. intros c' Hc.
    assert (c' = 0 \/ c' = 1 \/ c' = 2) as [-> | [-> | ->]] by lia;
      assumption. }
  left. repeat split; assumption.
Qed.

(** X1: [col_scan] returns -1 exactly when none of the four columns reads
    low, and otherwise the lowest column that does: it returns [c] exactly
    when column [c] reads low and no column before it does. *)
Theorem col_scan_first_low (cols : Cols) :
  (col_scan cols = -1 <->
   cols 0 <> 0 /\ cols 1 <> 0 /\ cols 2 <> 0 /\ cols 3 <> 0) /\
  (forall c, 0 <= c < 4 ->
     (col_scan cols = c <->
      cols c = 0 /\ forall c', 0 <= c' < c -> cols c' <> 0)) /\
  -1 <= col_scan cols < 4.
Proof.
  destruct (col_scan_cases cols) as [(E & H0 & H1 & H2 & H3) | (Hc & H0 & Hlt)].
  - split; [|split].
    + split; auto.
    + intros c Hc. split; [intros E'; lia|].
      intros [Hz _].
      assert (c = 0 \/ c = 1 \/ c = 2 \/ c = 3) as [-> | [-> | [-> | ->]]]
        by lia; contradiction.
    + lia.
  - split; [|split].
    + split; [intros E; lia|].
      intros (N0 & N1 & N2 & N3).
      assert (col_scan cols = 0 \/ col_scan cols = 1 \/ col_scan cols = 2
              \/ col_scan cols = 3) as [E | [E | [E | E]]] by lia;
        rewrite E in H0; contradiction.
    + intros c Hcr. split.
      * intros <-. auto.
      * intros [Hz Hbefore].
        destruct (Z.lt_trichotomy (col_scan cols) c) as [L | [E | G]];
          [|exact E|].
        -- elim (Hbefore (col_scan cols)); [lia | exact H0].
        -- elim (Hlt c); [lia | exact Hz].
    + lia.
Qed.

Lemma row_idle_or_hit (pins : Pins) (r : Z) :
  row_idle pins r \/
  exists c, 0 <= c < 4 /\ pins r c = 0 /\
            forall c', 0 <= c' < c -> pins r c' <> 0.
Proof.
  destruct (col_scan_cases (pins r)) as [(_ & H) | (Hc & H0 & Hlt)].
  - left. exact H.
  - right. exists (col_scan (pins r)). auto.
Qed.

(** Either no key is held or the scan has a matched coordinate. *)
Lemma idle_or_matched (pins : Pins) :
  all_idle pins \/ exists r c, matched pins r c.
Proof.
  assert (G : forall n : nat,
             (Z.of_nat n <= 4) ->
             (forall r, 0 <= r < Z.of_nat n -> row_idle pins r) \/
             exists r c, matched pins r c).
  { induction n as [| n IH]; intros Hn.
    - left. intros r Hr. lia.
    - destruct IH as [Hidle | Hm]; [lia | | right; exact Hm].
      destruct (row_idle_or_hit pins (Z.of_nat n)) as [Hi | (c & Hc & H0 & Hlt)].
      + left. intros r Hr.
        destruct (Z.eq_dec r (Z.of_nat n)) as [-> | Hne]; [exact Hi|].
        apply Hidle. lia.
      + right. exists (Z.of_nat n), c. unfold matched.
        split; [lia|]. split; [lia|]. split; [assumption|].
        split; [assumption|]. intros r' Hr'. apply Hidle. lia. }
  destruct (G 4%nat ltac:(simpl; lia)) as [H | H]; [left | right]; auto.
Qed.

Lemma row_loop_all_idle (pins : Pins) (t : Z) (rc : Z * Z) (tm : Timer.t) :
  all_idle pins ->
  row_loop pins t 0 4 rc tm = ((fst rc, -1), true, tm).
Proof.
  intros H. cbn [row_loop].
  rewrite !col_scan_idle by (apply H; lia). reflexivity.
Qed.

Lemma keypadScan_idle (pins : Pins) (t : Z) (s : ScanState) :
  all_idle pins ->
  keypadScan pins t s
  = ("x"%char, mkScan (fst (row_col s), -1) (-1, -1) (debounceTimer s)).
Proof.
  intros H. unfold keypadScan. now rewrite row_loop_all_idle.
Qed.

(** X2: with no key held, [keypadScan] returns the no-key character and
    forgets the last accepted coordinate; the debounce timer is neither
    started nor reset. *)
Theorem keypadScan_no_key (pins : Pins) (t : Z) (s : ScanState) :
  all_idle pins ->
  fst (keypadScan pins t s) = "x"%char /\
  last_key (snd (keypadScan pins t s)) = (-1, -1) /\
  debounceTimer (snd (keypadScan pins t s)) = debounceTimer s.
Proof.
  intros H. rewrite keypadScan_idle by assumption. simpl. auto.
Qed.

Lemma keypadScan_no_key_witness :
  fst (keypadScan no_press 700000 (mkScan (0, 0) (0, 0) (Timer.mk true 0)))
  = "x"%char /\
  last_key
    (snd (keypadScan no_press 700000 (mkScan (0, 0) (0, 0) (Timer.mk true 0))))
  = (-1, -1).
Proof.
  destruct (keypadScan_no_key no_press 700000
              (mkScan (0, 0) (0, 0) (Timer.mk true 0)) no_press_idle)
    as (H1 & H2 & _).
  split; assumption.
Defined.

(** X3: whenever [keypadScan] does return a key, it is the key at the matched
    coordinate, that coordinate differs from the last accepted one, the
    debounce timer had reached 500 ms, and afterwards the coordinate is
    the accepted one and the timer reads 0. *)
Theorem keypadScan_key_event (pins : Pins) (t : Z) (s : ScanState) :
  fst (keypadScan pins t s) <> "x"%char ->
  exists r c,
    matched pins r c /\
    fst (keypadScan pins t s) = key_at (r, c) /\
    last_key s <> (r, c) /\
    debounce_time <= elapsed_ms s t /\
    last_key (snd (keypadScan pins t s)) = (r, c) /\
    Timer.read_ms (debounceTimer (snd (keypadScan pins t s))) t = 0.
Proof.
  destruct (idle_or_matched pins) as [Hidle | (r & c & Hm)].
  - rewrite keypadScan_idle by assumption. simpl. intros H. now elim H.
  - unfold keypadScan, elapsed_ms.
    rewrite (row_loop_matched pins t r c _ _ Hm).
    pose proof (same_key_true (last_key s) r c) as Hsame.
    destruct (same_key (last_key s) (r, c)) eqn:Es; simpl;
      [intros H; now elim H|].
    destruct (Z.ltb_spec (Timer.read_ms (Timer.start (debounceTimer s) t) t)
                         debounce_time) as [Hlt | Hge]; simpl;
      [intros H; now elim H|].
    intros _. exists r, c.
    split; [exact Hm|]. split; [reflexivity|].
    split; [intros E; apply Hsame in E; discriminate E|].
    split; [exact Hge|]. split; [reflexivity|]. apply read_ms_reset.
Qed.

Lemma keypadScan_key_event_witness :
  exists r c,
    matched (press 1 1) r c /\
    fst (keypadScan (press 1 1) 600000 (mkScan (0, 0) (0, 0) (Timer.mk true 0)))
    = key_at (r, c).
Proof.
  destruct (keypadScan_key_event (press 1 1) 600000
              (mkScan (0, 0) (0, 0) (Timer.mk true 0))
              ltac:(vm_compute; discriminate))
    as (r & c & Hm & Hk & _).
  exists r, c. split; assumption.
Defined.

(** X4: before the debounce timer has ever been started, a scan returns the
    no-key character whatever is pressed: the first press only starts the
    timer. *)
Theorem keypadScan_first_press_swallowed (pins : Pins) (t : Z) (s : ScanState) :
  Timer.running (debounceTimer s) = false ->
  fst (keypadScan pins t s) = "x"%char.
Proof.
  intros Hr.
  destruct (idle_or_matched pins) as [Hidle | (r & c & Hm)].
  - now rewrite keypadScan_idle.
  - unfold keypadScan. rewrite (row_loop_matched pins t r c _ _ Hm).
    assert (E : Timer.read_ms (Timer.start (debounceTimer s) t) t = 0).
    { unfold Timer.start. rewrite Hr.
      unfold Timer.read_ms, Timer.elapsed_us; simpl.
      now rewrite Z.sub_diag. }
    rewrite E. simpl. now rewrite orb_true_r.
Qed.

Lemma keypadScan_first_press_swallowed_witness :
  fst (keypadScan (press 3 0) 5000000 scan_init) = "x"%char.
Proof.
  apply (keypadScan_first_press_swallowed (press 3 0) 5000000 scan_init).
  reflexivity.
Defined.

(** X5: a key that stays down is accepted at most once: from a state whose
    accepted coordinate is [(r, c)], any number of scans that match
    [(r, c)], at whatever times, all return the no-key character and
    leave the accepted coordinate in place. *)
Theorem held_key_not_repeated (r c : Z) (ins : list (Pins * Z)) :
  forall s,
    last_key s = (r, c) ->
    Forall (fun pt => matched (fst pt) r c) ins ->
    Forall (fun k => k = "x"%char) (fst (scan_run ins s)) /\
    last_key (snd (scan_run ins s)) = (r, c).
Proof.
  induction ins as [| [pins t] rest IH]; intros s Hl Hall; simpl.
  - split; [constructor | assumption].
  - inversion Hall as [| ? ? Hm Hrest]; subst. simpl in Hm.
    assert (E : keypadScan pins t s
                = ("x"%char,
                   mkScan (r, c) (r, c) (Timer.start (debounceTimer s) t))).
    { unfold keypadScan. rewrite (row_loop_matched pins t r c _ _ Hm).
      rewrite Hl.
      assert (Hs : same_key (r, c) (r, c) = true) by now apply same_key_true.
      now rewrite Hs. }
    rewrite E.
    destruct (IH (mkScan (r, c) (r, c) (Timer.start (debounceTimer s) t))
                 eq_refl Hrest) as [H1 H2].
    destruct (scan_run rest _) as [ks s2]; simpl in *.
    split; [constructor; auto | assumption].
Qed.

Lemma held_key_not_repeated_witness :
  Forall (fun k => k = "x"%char)
         (fst (scan_run [(press 0 0, 1000000); (press 0 0, 9000000)]
                        (mkScan (0, 0) (0, 0) (Timer.mk true 0)))).
Proof.
  destruct (held_key_not_repeated 0 0
              [(press 0 0, 1000000); (press 0 0, 9000000)]
              (mkScan (0, 0) (0, 0) (Timer.mk true 0)) eq_refl
              ltac:(constructor;
                    [apply press_matched; lia
                    | constructor; [apply press_matched; lia | constructor]]))
    as [H _].
  exact H.
Defined.

(** X6: releasing re-arms the key: after one scan with no key held, the key
    at the previously accepted coordinate is accepted again as soon as the
    timer, which the idle scan left alone, has reached 500 ms. *)
Theorem released_key_accepted_again
        (p0 p1 : Pins) (t0 t1 : Z) (s : ScanState) (r c : Z) :
  all_idle p0 ->
  matched p1 r c ->
  debounce_time <= elapsed_ms s t1 ->
  let out := keypadScan p1 t1 (snd (keypadScan p0 t0 s)) in
  fst out = key_at (r, c) /\ last_key (snd out) = (r, c).
Proof.
  intros H0 Hm Ht. cbv zeta.
  rewrite (keypadScan_idle p0 t0 s H0). cbn [snd].
  unfold keypadScan. cbn [row_col debounceTimer last_key].
  rewrite (row_loop_matched p1 t1 r c _ _ Hm).
  assert (Hs : same_key (-1, -1) (r, c) = false).
  { destruct (same_key (-1, -1) (r, c)) eqn:E; [|reflexivity].
    apply same_key_true in E. destruct Hm as (Hr & _).
    inversion E. lia. }
  rewrite Hs. simpl.
  unfold elapsed_ms in Ht.
  destruct (Z.ltb_spec (Timer.read_ms (Timer.start (debounceTimer s) t1) t1)
                       debounce_time) as [Hlt | Hge]; [lia|].
  simpl. auto.
Qed.

Lemma released_key_accepted_again_witness :
  fst (keypadScan (press 0 0) 1600000
         (snd (keypadScan no_press 1000000
                 (mkScan (0, 0) (0, 0) (Timer.mk true 1000000)))))
  = "1"%char.
Proof.
  destruct (released_key_accepted_again no_press (press 0 0) 1000000 1600000
              (mkScan (0, 0) (0, 0) (Timer.mk true 1000000)) 0 0
              no_press_idle
              ltac:(apply press_matched; lia)
              ltac:(vm_compute; discriminate))
    as [H _].
  exact H.
Defined.

End ScannerCalls.
